(** * Spark Driver Mileage & Expense Tracker: the reporting core

    A shallow embedding of [streamlit_app.py]: the proleptic Gregorian dates
    the program computes with, the ISO-8601 text it stores and compares, the
    SQLite tables behind the trip and expense forms, the quick-range
    resolver, the date-range filter of the report page and the cells of the
    PDF report.

    Conventions.
    - A Python [float] is a binary64 value: [PrimFloat.float].
    - A Python [str] is the [string] of its UTF-8 bytes, which is also what
      SQLite keeps of a TEXT: two texts are ordered as their bytes are, and a
      character is a lead byte with the continuation bytes that follow it.
    - A call that Python ends with an exception returns [Raise e]. *)

From Stdlib Require Import ZArith List Bool String Ascii DecimalString Lia Floats.
From Stdlib Require Import Sorted Permutation.
Import ListNotations.

Set Warnings "-inexact-float".

Local Open Scope Z_scope.

(** ** Exceptions *)

Inductive exn : Type :=
| OverflowError        (* date value out of range *)
| ValueError           (* a field of a date out of range *)
| TypeError            (* 'float' object is not subscriptable *)
| UnicodeEncodeError.  (* 'latin-1' codec can't encode character *)

Inductive result (A : Type) : Type :=
| Ok (a : A)
| Raise (e : exn).

Arguments Ok {A} a.
Arguments Raise {A} e.

Definition bind {A B : Type} (m : result A) (k : A -> result B) : result B :=
  match m with
  | Ok a => k a
  | Raise e => Raise e
  end.

Notation "x <- m ;; k" := (bind m (fun x => k))
  (at level 61, m at next level, right associativity).

(** ** datetime.date *)

Module Calendar.

Definition MINYEAR : Z := 1.
Definition MAXYEAR : Z := 9999.

Record date : Type := mkdate { year : Z; month : Z; day : Z }.

(** [year % 4 == 0 and (year % 100 != 0 or year % 400 == 0)] *)
Definition is_leap (y : Z) : bool :=
  (y mod 4 =? 0) && (negb (y mod 100 =? 0) || (y mod 400 =? 0)).

Definition days_in_month (y m : Z) : Z :=
  match m with
  | 1 => 31
  | 2 => if is_leap y then 29 else 28
  | 3 => 31
  | 4 => 30
  | 5 => 31
  | 6 => 30
  | 7 => 31
  | 8 => 31
  | 9 => 30
  | 10 => 31
  | 11 => 30
  | 12 => 31
  | _ => 0
  end.

(** The check of the [date(year, month, day)] constructor. *)
Definition valid (d : date) : bool :=
  (MINYEAR <=? year d) && (year d <=? MAXYEAR)
  && (1 <=? month d) && (month d <=? 12)
  && (1 <=? day d) && (day d <=? days_in_month (year d) (month d)).

(** [date(y, m, d)]: ValueError outside the calendar. *)
Definition date_of (y m d : Z) : result date :=
  let r := mkdate y m d in
  if valid r then Ok r else Raise ValueError.

(** [d.replace(day=n)] *)
Definition replace_day (d : date) (n : Z) : result date :=
  date_of (year d) (month d) n.

(** Days before January 1st of year [y]. *)
Definition days_before_year (y : Z) : Z :=
  let p := y - 1 in
  p * 365 + p / 4 - p / 100 + p / 400.

(** Days of year [y] before the first of month [m]. *)
Definition days_before_month (y m : Z) : Z :=
  match m with
  | 1 => 0
  | 2 => 31
  | 3 => 59
  | 4 => 90
  | 5 => 120
  | 6 => 151
  | 7 => 181
  | 8 => 212
  | 9 => 243
  | 10 => 273
  | 11 => 304
  | 12 => 334
  | _ => 0
  end + (if (2 <? m) && is_leap y then 1 else 0).

(** [d.toordinal()]: 0001-01-01 is day 1. *)
Definition toordinal (d : date) : Z :=
  days_before_year (year d) + days_before_month (year d) (month d) + day d.

(** [date.max.toordinal()] *)
Definition MAXORDINAL : Z := 3652059.

(** [d.weekday()]: Monday is 0, Sunday is 6. *)
Definition weekday (d : date) : Z := (toordinal d + 6) mod 7.

(** The day after [d]; there is none after 9999-12-31. *)
Definition tomorrow (d : date) : result date :=
  if day d <? days_in_month (year d) (month d)
  then Ok (mkdate (year d) (month d) (day d + 1))
  else if month d <? 12
  then Ok (mkdate (year d) (month d + 1) 1)
  else if year d <? MAXYEAR
  then Ok (mkdate (year d + 1) 1 1)
  else Raise OverflowError.

(** The day before [d]; there is none before 0001-01-01. *)
Definition yesterday (d : date) : result date :=
  if 1 <? day d
  then Ok (mkdate (year d) (month d) (day d - 1))
  else if 1 <? month d
  then Ok (mkdate (year d) (month d - 1) (days_in_month (year d) (month d - 1)))
  else if MINYEAR <? year d
  then Ok (mkdate (year d - 1) 12 31)
  else Raise OverflowError.

Fixpoint step_days (step : date -> result date) (n : nat) (d : date) : result date :=
  match n with
  | O => Ok d
  | S k => d' <- step d ;; step_days step k d'
  end.

(** [d + timedelta(days=n)]: the date [n] days after [d] ([-n] days before
    it when [n] is negative), OverflowError when that leaves
    0001-01-01 .. 9999-12-31. *)
Definition add_days (d : date) (n : Z) : result date :=
  if 0 <=? n
  then step_days tomorrow (Z.to_nat n) d
  else step_days yesterday (Z.to_nat (- n)) d.

(** [d - timedelta(days=n)] *)
Definition sub_days (d : date) (n : Z) : result date := add_days d (- n).

(** Python orders dates as the tuples [(year, month, day)]. *)
Definition date_compare (a b : date) : comparison :=
  match year a ?= year b with
  | Eq => match month a ?= month b with
          | Eq => day a ?= day b
          | c => c
          end
  | c => c
  end.

(** [a <= b] and [a < b] on dates. *)
Definition date_leb (a b : date) : bool :=
  match date_compare a b with Gt => false | _ => true end.

Definition date_ltb (a b : date) : bool :=
  match date_compare a b with Lt => true | _ => false end.

(** The year and month that follow month [m] of year [y]. *)
Definition month_after (y m : Z) : Z * Z :=
  if m <? 12 then (y, m + 1) else (y + 1, 1).

(** Every day up to 9999-11-30. *)
Definition before_december_9999 (d : date) : Prop :=
  year d < MAXYEAR \/ month d < 12.

End Calendar.

(** ** str: ISO-8601 text and its order *)

Module IsoText.
Import Calendar.

Local Open Scope string_scope.

(** The character of a decimal digit [0 <= n < 10]. *)
Definition digit (n : Z) : ascii := ascii_of_N (48 + Z.to_N n).

(** ["%0wd" % n] for [0 <= n < 10 ^ w]: the [w] decimal digits of [n], the
    most significant first. *)
Fixpoint zfill (w : nat) (n : Z) : string :=
  match w with
  | O => ""
  | S k => String (digit (n / 10 ^ Z.of_nat k)) (zfill k (n mod 10 ^ Z.of_nat k))
  end.

(** [d.isoformat()], also [str(d)]: ["%04d-%02d-%02d" % (year, month, day)]. *)
Definition isoformat (d : date) : string :=
  zfill 4 (year d) ++ "-" ++ zfill 2 (month d) ++ "-" ++ zfill 2 (day d).

(** [a <= b] and [a >= b] on str: lexicographic, character by character. *)
Definition str_le (a b : string) : bool := String.leb a b.
Definition str_ge (a b : string) : bool := String.leb b a.

(** Bytes [10xxxxxx] continue the character of the lead byte before them. *)
Definition is_cont (b : ascii) : bool :=
  (128 <=? N_of_ascii b)%N && (N_of_ascii b <? 192)%N.

(** [len(s)]: the characters of [s]. *)
Fixpoint str_len (s : string) : nat :=
  match s with
  | "" => O
  | String b r => if is_cont b then str_len r else S (str_len r)
  end.

(** [s[:n]]: the first [n] characters of [s]. *)
Fixpoint slice_to (n : nat) (s : string) : string :=
  match s with
  | "" => ""
  | String b r =>
      if is_cont b then String b (slice_to n r)
      else match n with
           | O => ""
           | S k => String b (slice_to k r)
           end
  end.


(** Can [s.encode("latin-1")] encode [s]?  The characters up to U+00FF are
    the bytes below 128 and the lead bytes 194 and 195 with their
    continuation byte. *)
Definition latin1_byte (b : ascii) : bool :=
  (N_of_ascii b <? 128)%N || is_cont b
  || (N_of_ascii b =? 194)%N || (N_of_ascii b =? 195)%N.

Fixpoint latin1 (s : string) : bool :=
  match s with
  | "" => true
  | String b r => latin1_byte b && latin1 r
  end.

(** [s or ""] for a text that is a str or [None]. *)
Definition or_empty (s : option string) : string :=
  match s with
  | Some t => t
  | None => ""
  end.

End IsoText.

(** ** Numbers *)

Module Num.

(** A total is the int literal [0] or a float64 sum. *)
Inductive pynum : Type :=
| PyInt (z : Z)
| PyFloat (f : float).

(** [float(z)] for an int of at most 63 bits. *)
Definition float_of_Z (z : Z) : float :=
  if z <? 0
  then PrimFloat.opp (PrimFloat.of_uint63 (Uint63.of_Z (- z)))
  else PrimFloat.of_uint63 (Uint63.of_Z z).

Definition to_float (x : pynum) : float :=
  match x with
  | PyInt z => float_of_Z z
  | PyFloat f => f
  end.

(** [x * r] with [r] a float: an int operand is converted first. *)
Definition mul_float (x : pynum) (r : float) : float :=
  PrimFloat.mul (to_float x) r.

(** [x == 0], [a > b], [a <= b] on floats; every comparison with NaN is
    false. *)
Definition is_zero (x : float) : bool := PrimFloat.eqb x 0%float.
Definition float_gt (a b : float) : bool := PrimFloat.ltb b a.
Definition float_le (a b : float) : bool := PrimFloat.leb a b.

(** What the program takes from Python and pandas: the sum of a float64
    column, the format specifications of its f-strings, which give ASCII
    text, and the dtype [read_sql_query] gives a TEXT column. *)
Class Runtime : Type := {
  (** [column.sum()] *)
  series_sum : list float -> float;
  (** [f"{x:.2f}"] *)
  format_2f : float -> string;
  (** [f"{x:,.2f}"] *)
  format_comma_2f : float -> string;
  (** Does the frame hold the NULLs of this TEXT column as NaN (the str
      dtype of pandas 3) and not as [None] (the object dtype)? *)
  null_is_nan : list (option string) -> bool
}.

End Num.

(** ** The SQLite store *)

Module Store.

Definition blob : Type := list Byte.byte.

(** A row of table [trips]; [None] is SQL NULL. *)
Record trip : Type := mktrip {
  trip_id : Z;
  trip_date : string;
  start_odometer : option float;
  end_odometer : option float;
  miles : float;
  notes : option string;
  odometer_image : option blob;
  trip_created_at : string
}.

(** A row of table [expenses]. *)
Record expense : Type := mkexpense {
  expense_id : Z;
  expense_date : string;
  category : string;
  description : option string;
  amount : float;
  receipt_image : option blob;
  expense_created_at : string
}.

(** The database file: each table in insertion order, with the largest id
    AUTOINCREMENT has handed out for it. *)
Record db : Type := mkdb {
  trips : list trip;
  trips_seq : Z;
  expenses : list expense;
  expenses_seq : Z
}.

(** [init_db] on a fresh file. *)
Definition init_db : db := mkdb [] 0 [] 0.

(** [insert_trip]; [now] is [datetime.utcnow().isoformat()]. *)
Definition insert_trip (now : string) (d : db)
    (trip_date : string) (start_odometer end_odometer : option float)
    (miles : float) (notes : option string) (odometer_image_bytes : option blob) : db :=
  let id := trips_seq d + 1 in
  mkdb (trips d ++ [mktrip id trip_date start_odometer end_odometer miles notes
                      odometer_image_bytes now])
       id (expenses d) (expenses_seq d).

(** [insert_expense] *)
Definition insert_expense (now : string) (d : db)
    (expense_date category : string) (description : option string)
    (amount : float) (receipt_image_bytes : option blob) : db :=
  let id := expenses_seq d + 1 in
  mkdb (trips d) (trips_seq d)
       (expenses d ++ [mkexpense id expense_date category description amount
                         receipt_image_bytes now])
       id.

(** [ORDER BY date DESC, id DESC]: does row [(da, ia)] come no later than
    row [(db, ib)]?  TEXT is compared byte by byte. *)
Definition desc_before (da : string) (ia : Z) (db : string) (ib : Z) : bool :=
  match String.compare da db with
  | Gt => true
  | Lt => false
  | Eq => ib <=? ia
  end.

Section Sort.
Variable A : Type.
Variable before : A -> A -> bool.

Fixpoint insert_row (x : A) (l : list A) : list A :=
  match l with
  | [] => [x]
  | y :: r => if before x y then x :: l else y :: insert_row x r
  end.

Definition order_by (l : list A) : list A := fold_right insert_row [] l.
End Sort.

Arguments insert_row {A} before x l.
Arguments order_by {A} before l.

(** [load_trips_df]: a frame is the list of its rows. *)
Definition load_trips_df (d : db) : list trip :=
  order_by (fun a b => desc_before (trip_date a) (trip_id a) (trip_date b) (trip_id b))
           (trips d).

(** [load_expenses_df] *)
Definition load_expenses_df (d : db) : list expense :=
  order_by (fun a b => desc_before (expense_date a) (expense_id a)
                                   (expense_date b) (expense_id b))
           (expenses d).

(** [df.empty] *)
Definition empty {A : Type} (df : list A) : bool :=
  match df with
  | [] => true
  | _ :: _ => false
  end.

End Store.

(** ** The Streamlit pages *)

Module Ui.
Import Num.

(** The calls on the PDF object, in order. *)
Inductive pdf_op : Type :=
| SetAutoPageBreak (auto : bool) (margin : Z)
| AddPage
| SetFont (family style : string) (size : Z)
| Cell (w h : Z) (txt : string) (border : Z) (ln : bool) (align : string)
| Ln (h : Z)
| SetY (y : Z).

(** What a page shows, in order. *)
Inductive widget : Type :=
| StHeader (body : string)
| StError (body : string)
| StSuccess (body : string)
| StInfo (body : string)
| StWrite (body : string)
| StMetric (label : string) (value : pynum)
| StDownloadButton (label : string) (data : list pdf_op) (file_name mime : string).

End Ui.

Module Forms.
Import Calendar IsoText Num Store Ui.

Local Open Scope string_scope.

(** The widgets of the Log Trip page as the user left them. *)
Record trip_form : Type := mktrip_form {
  in_trip_date : date;
  in_start : float;
  in_end : float;
  in_miles : float;
  in_notes : string;
  in_img : option blob;
  save_trip : bool        (* the Save Trip button was pressed *)
}.

(** The widgets of the Log Expense page. *)
Record expense_form : Type := mkexpense_form {
  in_expense_date : date;
  in_category : string;
  in_amount : float;
  in_desc : string;
  in_receipt : option blob;
  save_expense : bool     (* the Save Expense button was pressed *)
}.

Section Pages.
Context {rt : Runtime}.

(** [show_log_trip]: the store after the run and what the page showed. *)
Definition show_log_trip (now : string) (f : trip_form) (d : db) : db * list widget :=
  let header := StHeader "📝 Log Trip" in
  let save (miles : float) :=
    (insert_trip now d
       (isoformat (in_trip_date f))
       (if float_gt (in_start f) 0 then Some (in_start f) else None)
       (if float_gt (in_end f) 0 then Some (in_end f) else None)
       miles
       (Some (in_notes f))
       (in_img f),
     [header; StSuccess ("Saved trip: " ++ format_2f miles ++ " miles")]) in
  if save_trip f then
    if is_zero (in_miles f) && float_gt (in_end f) (in_start f) then
      save (PrimFloat.sub (in_end f) (in_start f))
    else if is_zero (in_miles f) then
      (d, [header; StError "Enter miles OR valid odometer readings."])
    else
      save (in_miles f)
  else (d, [header]).

(** [show_log_expense] *)
Definition show_log_expense (now : string) (f : expense_form) (d : db) : db * list widget :=
  let header := StHeader "💸 Log Expense" in
  if save_expense f then
    if float_le (in_amount f) 0 then
      (d, [header; StError "Enter valid amount."])
    else
      (insert_expense now d
         (isoformat (in_expense_date f))
         (in_category f)
         (Some (in_desc f))
         (in_amount f)
         (in_receipt f),
       [header; StSuccess "Expense Saved!"])
  else (d, [header]).

End Pages.

End Forms.

Module Reports.
Import Calendar IsoText Num Store Ui.

Local Open Scope string_scope.

Definition IRS_RATE_PER_MILE : float := 0.725%float.

(** [get_quick_range(name)] on a day [today = date.today()]. *)
Definition get_quick_range (today : date) (name : string) : result (date * date) :=
  if name =? "This Week (Mon-Sun)" then
    start <- sub_days today (weekday today) ;;
    end_ <- add_days start 6 ;;
    Ok (start, end_)
  else if name =? "This Month" then
    start <- replace_day today 1 ;;
    e28 <- date_of (year today) (month today) 28 ;;
    next <- add_days e28 4 ;;
    first <- replace_day next 1 ;;
    end_ <- sub_days first 1 ;;
    Ok (start, end_)
  else if name =? "This Year" then
    start <- date_of (year today) 1 1 ;;
    end_ <- date_of (year today) 12 31 ;;
    Ok (start, end_)
  else
    Ok (today, today).

(** [trips[(trips.trip_date >= start.isoformat()) &
           (trips.trip_date <= end.isoformat())] if not trips.empty else trips] *)
Definition filter_trips (trips : list trip) (start end_ : date) : list trip :=
  if empty trips then trips
  else filter (fun r => str_ge (trip_date r) (isoformat start)
                        && str_le (trip_date r) (isoformat end_)) trips.

(** The same on [expenses.expense_date]. *)
Definition filter_expenses (expenses : list expense) (start end_ : date) : list expense :=
  if empty expenses then expenses
  else filter (fun r => str_ge (expense_date r) (isoformat start)
                        && str_le (expense_date r) (isoformat end_)) expenses.

(** The selectors of the page's Range box. *)
Definition quick_ranges : list string :=
  ["Custom"; "This Week (Mon-Sun)"; "This Month"; "This Year"].

(** The widgets of the Reports page. *)
Record report_form : Type := mkreport_form {
  quick : string;
  custom_start : date;
  custom_end : date;
  generate : bool         (* the Generate IRS PDF button was pressed *)
}.

Section Pages.
Context {rt : Runtime}.

(** [df[column].sum() if not df.empty else 0] *)
Definition total (column : list float) : pynum :=
  if empty column then PyInt 0 else PyFloat (series_sum column).

Definition total_miles (trips_df : list trip) : pynum := total (map miles trips_df).
Definition total_deduction (trips_df : list trip) : float :=
  mul_float (total_miles trips_df) IRS_RATE_PER_MILE.
Definition total_expenses (expenses_df : list expense) : pynum :=
  total (map amount expenses_df).

(** A line of the trip table, with [txt] in its Notes cell. *)
Definition trip_cells (row : trip) (txt : string) : list pdf_op :=
  [ Cell 30 6 (trip_date row) 1 false "";
    Cell 25 6 (format_2f (miles row)) 1 false "";
    Cell 135 6 txt 1 true "" ].

(** A line of the expense table, with [txt] in its Description cell. *)
Definition expense_cells (row : expense) (txt : string) : list pdf_op :=
  [ Cell 30 6 (expense_date row) 1 false "";
    Cell 40 6 (category row) 1 false "";
    Cell 25 6 ("$" ++ format_2f (amount row)) 1 false "";
    Cell 95 6 txt 1 true "" ].

Definition summary_block (trips_df : list trip) (expenses_df : list expense) : list pdf_op :=
  [ Ln 4;
    SetFont "Helvetica" "B" 12;
    Cell 0 8 "Summary" 0 true "";
    SetFont "Helvetica" "" 11;
    Cell 0 6 ("Total miles: " ++ format_2f (to_float (total_miles trips_df))) 0 true "";
    Cell 0 6 ("IRS deduction ($0.725/mile): $"
              ++ format_comma_2f (total_deduction trips_df)) 0 true "";
    Cell 0 6 ("Total expenses: $"
              ++ format_comma_2f (to_float (total_expenses expenses_df))) 0 true "";
    Ln 4 ].

(** The trip table, with [lines] for its rows. *)
Definition trip_table_of (trips_df : list trip) (lines : list pdf_op) : list pdf_op :=
  [ SetFont "Helvetica" "B" 12;
    Cell 0 8 "Trip Log" 0 true "";
    SetFont "Helvetica" "" 9 ]
  ++ (if empty trips_df then
        [ Cell 0 6 "No trips recorded." 0 true "" ]
      else
        [ SetFont "Helvetica" "B" 9;
          Cell 30 6 "Date" 1 false "";
          Cell 25 6 "Miles" 1 false "";
          Cell 135 6 "Notes" 1 true "";
          SetFont "Helvetica" "" 9 ]
        ++ lines).

(** The expense table, with [lines] for its rows. *)
Definition expense_table_of (expenses_df : list expense) (lines : list pdf_op)
    : list pdf_op :=
  [ SetFont "Helvetica" "B" 12;
    Cell 0 8 "Expenses" 0 true "" ]
  ++ (if empty expenses_df then
        [ Cell 0 6 "No expenses recorded." 0 true "" ]
      else
        [ SetFont "Helvetica" "B" 9;
          Cell 30 6 "Date" 1 false "";
          Cell 40 6 "Category" 1 false "";
          Cell 25 6 "Amount" 1 false "";
          Cell 95 6 "Description" 1 true "";
          SetFont "Helvetica" "" 9 ]
        ++ lines).

(** The calls of lines 124 to 183, with [trip_lines] and [expense_lines]
    for the two loops over the rows. *)
Definition document (trips_df : list trip) (expenses_df : list expense)
    (start_date end_date : date) (trip_lines expense_lines : list pdf_op)
    : list pdf_op :=
  [ SetAutoPageBreak true 15;
    AddPage;
    SetFont "Helvetica" "" 11;
    Cell 0 8 ("Reporting period: " ++ isoformat start_date
              ++ " to " ++ isoformat end_date) 0 true "" ]
  ++ summary_block trips_df expenses_df
  ++ trip_table_of trips_df trip_lines
  ++ [ Ln 6 ]
  ++ expense_table_of expenses_df expense_lines.

(** A line of a table in a frame that holds its NULLs as [None]. *)
Definition trip_row (row : trip) : list pdf_op :=
  trip_cells row (slice_to 70 (or_empty (notes row))).

Definition expense_row (row : expense) : list pdf_op :=
  expense_cells row (slice_to 70 (or_empty (description row))).

Definition trip_table (trips_df : list trip) : list pdf_op :=
  trip_table_of trips_df (flat_map trip_row trips_df).

Definition expense_table (expenses_df : list expense) : list pdf_op :=
  expense_table_of expenses_df (flat_map expense_row expenses_df).

(** The calls lines 124 to 183 of [generate_irs_pdf] make on the PDF
    object for frames that hold their NULLs as [None]. *)
Definition generate_irs_pdf (trips_df : list trip) (expenses_df : list expense)
    (start_date end_date : date) : list pdf_op :=
  document trips_df expenses_df start_date end_date
    (flat_map trip_row trips_df) (flat_map expense_row expenses_df).

(** The range the page reports on: the two date boxes for "Custom", the
    resolver otherwise. *)
Definition chosen_range (today : date) (f : report_form)
    : result (date * date * list widget) :=
  if quick f =? "Custom" then
    Ok (custom_start f, custom_end f, [])
  else
    r <- get_quick_range today (quick f) ;;
    Ok (fst r, snd r,
        [ StWrite ("From **" ++ isoformat (fst r) ++ "** to **"
                   ++ isoformat (snd r) ++ "**") ]).

(** [(row[column] or "")[:70]] in a frame that holds its NULLs as NaN when
    [nan]: NaN is true and has no slice. *)
Definition text_cell (nan : bool) (v : option string) : result string :=
  match v with
  | Some s => Ok (slice_to 70 s)
  | None => if nan then Raise TypeError else Ok (slice_to 70 "")
  end.

(** A loop over the rows of a frame, which stops at the first exception:
    the lines it has drawn. *)
Fixpoint each_row {A : Type} (text : A -> result string)
    (cells : A -> string -> list pdf_op) (rows : list A) : result (list pdf_op) :=
  match rows with
  | [] => Ok []
  | row :: rest =>
      txt <- text row ;;
      lines <- each_row text cells rest ;;
      Ok (cells row txt ++ lines)%list
  end.

(** The texts of the cells. *)
Fixpoint texts (ops : list pdf_op) : list string :=
  match ops with
  | [] => []
  | Cell _ _ txt _ _ _ :: rest => txt :: texts rest
  | _ :: rest => texts rest
  end.

(** [generate_irs_pdf(t, e, start, end)] on frames that hold the NULLs of
    [notes] and of [description] as NaN when [nan_notes] and
    [nan_descriptions]: TypeError from the first row with such a NULL,
    UnicodeEncodeError from [pdf.output(dest="S").encode("latin-1")] when a
    text in a line of the tables has a character above U+00FF, and the
    document otherwise.  The texts outside these lines are ASCII: the
    titles, the [str] of a date and the formatted numbers. *)
Definition irs_pdf (nan_notes nan_descriptions : bool)
    (trips_df : list trip) (expenses_df : list expense)
    (start_date end_date : date) : result (list pdf_op) :=
  trip_lines <-
    each_row (fun r => text_cell nan_notes (notes r)) trip_cells trips_df ;;
  expense_lines <-
    each_row (fun r => text_cell nan_descriptions (description r))
      expense_cells expenses_df ;;
  if forallb latin1 (texts (trip_lines ++ expense_lines))
  then Ok (document trips_df expenses_df start_date end_date
             trip_lines expense_lines)
  else Raise UnicodeEncodeError.

(** The Reports page: what it has drawn, and the exception that ended it,
    if any. *)
Definition report_page (today : date) (f : report_form) (d : db)
    : list widget * option exn :=
  let header := StHeader "📊 Reports" in
  let trips := load_trips_df d in
  let expenses := load_expenses_df d in
  if empty trips && empty expenses then
    ([header; StInfo "No data yet."], None)
  else
    match chosen_range today f with
    | Raise x => ([header], Some x)
    | Ok (start, end_, shown) =>
        let t := filter_trips trips start end_ in
        let e := filter_expenses expenses start end_ in
        let drawn :=
          ([header] ++ shown
           ++ [ StMetric "Miles" (total (map miles t));
                StMetric "Expenses" (total (map amount e)) ])%list in
        if generate f then
          match irs_pdf (null_is_nan (map notes trips))
                        (null_is_nan (map description expenses))
                        t e start end_ with
          | Ok pdf =>
              ((drawn ++ [ StDownloadButton "Download PDF" pdf
                             "irs_report.pdf" "application/pdf" ])%list, None)
          | Raise x => (drawn, Some x)
          end
        else (drawn, None)
    end.

(** [show_reports]: the page, or the exception that ended it. *)
Definition show_reports (today : date) (f : report_form) (d : db) : result (list widget) :=
  match report_page today f d with
  | (page, None) => Ok page
  | (_, Some x) => Raise x
  end.

End Pages.

(** [IRSReportPDF.header], which the writer calls at the top of every
    page. *)
Definition header : list pdf_op :=
  [ SetFont "Helvetica" "B" 14;
    Cell 0 10 "Spark Driver IRS Mileage & Expense Report" 0 true "C";
    Ln 2 ].

(** [IRSReportPDF.footer], which the writer calls at the end of every
    page; [stamp] is [datetime.now().strftime('%Y-%m-%d %H:%M')]. *)
Definition footer (stamp : string) : list pdf_op :=
  [ SetY (-15);
    SetFont "Helvetica" "I" 8;
    Cell 0 10 ("Generated on " ++ stamp) 0 false "C" ].

(** [paged body full]: [full] is every call on the PDF object when
    [generate_irs_pdf] makes the calls [body]: [add_page] calls the header,
    a cell that does not fit its page ends the page with the footer and
    starts one with the header before it is drawn, and [output] ends the
    last page with the footer.  Which cells do not fit is the writer's
    matter. *)
Inductive paged : list pdf_op -> list pdf_op -> Prop :=
| paged_output (stamp : string) : paged [] (footer stamp)
| paged_add_page (body full : list pdf_op) :
    paged body full -> paged (AddPage :: body) (AddPage :: header ++ full)%list
| paged_call (op : pdf_op) (body full : list pdf_op) :
    op <> AddPage -> paged body full -> paged (op :: body) (op :: full)
| paged_break (stamp : string) (w h : Z) (txt : string) (border : Z)
    (ln : bool) (align : string) (body full : list pdf_op) :
    paged (Cell w h txt border ln align :: body) full ->
    paged (Cell w h txt border ln align :: body)
          (footer stamp ++ header ++ full)%list.

(** The calls when every cell fits its page. *)
Fixpoint one_page (stamp : string) (body : list pdf_op) : list pdf_op :=
  match body with
  | [] => footer stamp
  | AddPage :: rest => (AddPage :: header ++ one_page stamp rest)%list
  | op :: rest => op :: one_page stamp rest
  end.

End Reports.

(** ** A runtime to run the pages with *)

Module Sample.
Import IsoText Num.

Local Open Scope string_scope.

(** The decimal numeral of [n >= 0]. *)
Definition decimal (n : Z) : string :=
  NilZero.string_of_uint (N.to_uint (Z.to_N n)).

(** [n] with a comma before every group of three digits. *)
Fixpoint grouped (fuel : nat) (n : Z) : string :=
  match fuel with
  | O => decimal n
  | S k => if (n <? 1000)%Z then decimal n
           else grouped k (n / 1000) ++ "," ++ zfill 3 (n mod 1000)
  end.

(** [num / den] rounded to the nearest integer, ties to even. *)
Definition round_half_even (num den : Z) : Z :=
  let q := num / den in
  let r := num mod den in
  if ((den <? 2 * r) || ((2 * r =? den) && Z.odd q))%Z then q + 1 else q.

(** Hundredths of the magnitude [m * 2 ^ e], correctly rounded. *)
Definition hundredths (m : positive) (e : Z) : Z :=
  if (0 <=? e)%Z then Z.pos m * 2 ^ e * 100
  else round_half_even (Z.pos m * 100) (2 ^ (- e)).

(** [format(x, ".2f")], and [format(x, ",.2f")] when [commas]. *)
Definition fixed2 (commas : bool) (x : float) : string :=
  let sign (s : bool) := if s then "-" else "" in
  match Prim2SF x with
  | S754_nan => "nan"
  | S754_infinity s => sign s ++ "inf"
  | S754_zero s => sign s ++ "0.00"
  | S754_finite s m e =>
      let c := hundredths m e in
      sign s ++ (if commas then grouped 128 (c / 100) else decimal (c / 100))
      ++ "." ++ zfill 2 (c mod 100)
  end.

(** Summation from the left, starting at [0.0]: the sum of a column of at
    most seven rows, as the samples are; a longer column is summed in
    another order, which this runtime does not follow. *)
Definition sum_left (column : list float) : float :=
  fold_left PrimFloat.add column 0%float.


(** The object dtype: a NULL stays [None]. *)
Definition runtime : Runtime :=
  {| series_sum := sum_left;
     format_2f := fixed2 false;
     format_comma_2f := fixed2 true;
     null_is_nan := fun _ => false |}.


End Sample.

(** Rows to run the pages on. *)
Module SampleData.
Import Calendar Store Forms Reports.

Local Open Scope string_scope.

Definition mar_1 : date := mkdate 2024 3 1.
Definition mar_31 : date := mkdate 2024 3 31.
Definition apr_1 : date := mkdate 2024 4 1.

Definition trip_on (id : Z) (day : string) (miles : float) (notes : option string) : trip :=
  mktrip id day None None miles notes None "2024-04-02T08:00:00".

Definition expense_on (id : Z) (day : string) (amount : float)
    (description : option string) : expense :=
  mkexpense id day "Gas" description amount None "2024-04-02T08:00:00".

(** A note of a hundred characters. *)
Definition long_note : string :=
  "0123456789012345678901234567890123456789012345678901234567890123456789012345678901234567890123456789".

Definition trip_mar_31 : trip := trip_on 2 "2024-03-31" 12.5 (Some long_note).
Definition trip_apr_1 : trip := trip_on 3 "2024-04-01" 7 None.
Definition trips_df : list trip :=
  [ trip_apr_1; trip_mar_31; trip_on 1 "2024-03-10" 50 (Some "deliveries") ].

Definition expense_mar_10 : expense := expense_on 1 "2024-03-10" 40 None.
Definition expenses_df : list expense := [ expense_mar_10 ].

(** Odometer 1000.5 to 1010.25, miles left at 0. *)
Definition odometer_form : trip_form :=
  mktrip_form mar_31 1000.5 1010.25 0 "" None true.

(** Nothing filled in. *)
Definition blank_trip_form : trip_form := mktrip_form mar_31 0 0 0 "" None true.
Definition blank_expense_form : expense_form :=
  mkexpense_form mar_31 "Gas" 0 "" None true.

(** Miles typed as -5. *)
Definition negative_form : trip_form := mktrip_form mar_31 0 0 (-5) "" None true.

(** A custom range entered backwards. *)
Definition backwards_form : report_form := mkreport_form "Custom" mar_31 mar_1 true.

Definition stored : db := mkdb trips_df 3 expenses_df 1.






End SampleData.

(** ** Login, dashboard, settings and the script *)

Module App.
Import Calendar IsoText Num Store Ui Forms Reports.

Local Open Scope string_scope.

Definition APP_USERNAME : string := "driver".
Definition APP_PASSWORD : string := "spark123".

(** [f"{x:.1f}"], which only the dashboard uses. *)
Class DashboardFormat : Type := {
  format_1f : float -> string
}.

(** What a run of the script shows: the widgets of the form and report
    pages, and those of the login page and the dashboard. *)
Inductive element : Type :=
| StTitle (body : string)
| StSubheader (body : string)
| StMetricText (label value : string)
| StTripsFrame (rows : list (string * float * option string))
| StExpensesFrame (rows : list (string * string * float))
| St (w : widget).

(** How a run of the script ends: at its last line, by [st.rerun()], or by
    an exception. *)
Inductive ending : Type :=
| Done
| Rerun
| Failed (e : exn).

(** [st.session_state]: the key [logged_in], absent in a new session. *)
Record session : Type := mksession { logged_in : option bool }.

(** The widgets of the login page. *)
Record login_form : Type := mklogin_form {
  in_username : string;
  in_password : string;
  login_pressed : bool
}.

(** [show_login]: the session after it, what it showed, how it ended. *)
Definition show_login (f : login_form) (s : session)
    : session * list element * ending :=
  let title := StTitle "🚗 Spark Driver Tracker - Login" in
  if login_pressed f then
    if (in_username f =? APP_USERNAME) && (in_password f =? APP_PASSWORD) then
      (mksession (Some true), [title; St (StSuccess "Login successful!")], Rerun)
    else
      (s, [title; St (StError "Incorrect username or password.")], Done)
  else (s, [title], Done).

(** [show_settings] *)
Definition show_settings : list element :=
  [ St (StHeader "⚙️ Settings & Help");
    St (StWrite "Single-user app. Data stored locally in SQLite DB.");
    St (StWrite "To secure login, change username/password in code.");
    St (StWrite "Add to home screen for mobile app feel.") ].

(** [trips[["trip_date", "miles", "notes"]].head(20)] *)
Definition recent_trips (trips : list trip) : list (string * float * option string) :=
  map (fun r => (trip_date r, miles r, notes r)) (firstn 20 trips).

(** [expenses[["expense_date", "category", "amount"]].head(20)] *)
Definition recent_expenses (expenses : list expense) : list (string * string * float) :=
  map (fun r => (expense_date r, category r, amount r)) (firstn 20 expenses).

(** The widgets of one run: every page's, of which the run reads one
    page's. *)
Record inputs : Type := mkinputs {
  login_in : login_form;
  menu : string;
  trip_in : trip_form;
  expense_in : expense_form;
  report_in : report_form;
  log_out : bool          (* the Log Out button was pressed *)
}.

(** A run of the script: the session and the store after it, what it
    showed and how it ended. *)
Record outcome : Type := mkoutcome {
  session_out : session;
  db_out : db;
  shown : list element;
  ended : ending
}.

(** [init_db] on the database file, which [CREATE TABLE IF NOT EXISTS]
    leaves as it is when it exists. *)
Definition open_db (file : option db) : db :=
  match file with
  | Some d => d
  | None => init_db
  end.

Section Pages.
Context {rt : Runtime} {df : DashboardFormat}.

(** [show_dashboard] *)
Definition show_dashboard (d : db) : list element :=
  let trips := load_trips_df d in
  let expenses := load_expenses_df d in
  let total_miles := total (map miles trips) in
  let deduction := mul_float total_miles IRS_RATE_PER_MILE in
  let total_expenses := total (map amount expenses) in
  ([ StTitle "🚗 Dashboard";
     StMetricText "Miles" (format_1f (to_float total_miles));
     StMetricText "IRS Deduction" ("$" ++ format_comma_2f deduction);
     StMetricText "Expenses" ("$" ++ format_comma_2f (to_float total_expenses));
     StSubheader "Recent Trips" ]
   ++ (if empty trips then [ St (StInfo "No trips logged yet.") ]
       else [ StTripsFrame (recent_trips trips) ])
   ++ [ StSubheader "Recent Expenses" ]
   ++ (if empty expenses then [ St (StInfo "No expenses logged yet.") ]
       else [ StExpensesFrame (recent_expenses expenses) ]))%list.

(** The page the sidebar selects: the store after it, what it showed, and
    the exception that ended it, if any. *)
Definition show_page (today : date) (now : string) (i : inputs) (d : db)
    : db * list element * option exn :=
  if menu i =? "Dashboard" then
    (d, show_dashboard d, None)
  else if menu i =? "Log Trip" then
    let r := show_log_trip now (trip_in i) d in
    (fst r, map St (snd r), None)
  else if menu i =? "Log Expense" then
    let r := show_log_expense now (expense_in i) d in
    (fst r, map St (snd r), None)
  else if menu i =? "Reports & Export" then
    let r := report_page today (report_in i) d in
    (d, map St (fst r), snd r)
  else if menu i =? "Settings" then
    (d, show_settings, None)
  else (d, [], None).

(** [main]: one run of the script. *)
Definition main (today : date) (now : string) (i : inputs)
    (s : session) (file : option db) : outcome :=
  let d := open_db file in
  let s0 := match logged_in s with
            | Some _ => s
            | None => mksession (Some false)
            end in
  if negb (match logged_in s0 with Some b => b | None => false end) then
    let r := show_login (login_in i) s0 in
    mkoutcome (fst (fst r)) d (snd (fst r)) (snd r)
  else
    let r := show_page today now i d in
    match snd r with
    | Some e => mkoutcome s0 (fst (fst r)) (snd (fst r)) (Failed e)
    | None =>
        if log_out i then
          mkoutcome (mksession (Some false)) (fst (fst r)) (snd (fst r)) Rerun
        else
          mkoutcome s0 (fst (fst r)) (snd (fst r)) Done
    end.

(** The runs of the script one after the other, each with its day, its
    clock and its widgets; the session and the file pass from run to run. *)
Fixpoint run_all (steps : list (date * string * inputs))
    (s : session) (file : option db) : session * option db :=
  match steps with
  | [] => (s, file)
  | (today, now, i) :: rest =>
      let o := main today now i s file in
      run_all rest (session_out o) (Some (db_out o))
  end.

End Pages.

(** The login form holds the user name and the password of the program. *)
Definition good_credentials (f : login_form) : Prop :=
  in_username f = APP_USERNAME /\ in_password f = APP_PASSWORD.

End App.

(** ** Reading a document and a table *)

Module Observe.
Import Store Ui.

(** The texts of the cells of width [w], in the order they are written. *)
Fixpoint column (w : Z) (ops : list pdf_op) : list string :=
  match ops with
  | [] => []
  | Cell w' _ txt _ _ _ :: rest =>
      if w' =? w then txt :: column w rest else column w rest
  | _ :: rest => column w rest
  end.

(** Is [op] a cell with a border, that is a cell of a table? *)
Definition table_cell (op : pdf_op) : bool :=
  match op with
  | Cell _ _ _ border _ _ => border =? 1
  | _ => false
  end.

(** Row [a] stands before row [b] in [ORDER BY date DESC, id DESC]. *)
Definition trip_before (a b : trip) : Prop :=
  desc_before (trip_date a) (trip_id a) (trip_date b) (trip_id b) = true.

Definition expense_before (a b : expense) : Prop :=
  desc_before (expense_date a) (expense_id a) (expense_date b) (expense_id b) = true.

(** The ids of a table are those AUTOINCREMENT has handed out: positive,
    at most the sequence value, and all different. *)
Definition ids_ok (ids : list Z) (seq : Z) : Prop :=
  0 <= seq /\ NoDup ids /\ forall id, In id ids -> 1 <= id <= seq.

Definition keys_ok (d : db) : Prop :=
  ids_ok (map trip_id (trips d)) (trips_seq d) /\
  ids_ok (map expense_id (expenses d)) (expenses_seq d).

(** [l] with rows added at its end. *)
Definition extends {A : Type} (l l' : list A) : Prop :=
  exists added, l' = (l ++ added)%list.

(** Store [d'] is store [d], or [d] after one [insert_trip], or [d] after
    one [insert_expense] of an amount that is not [<= 0]. *)
Definition at_most_one_insert (d d' : db) : Prop :=
  d' = d \/
  (exists now day so eo m n img, d' = insert_trip now d day so eo m n img) \/
  (exists now day cat desc a img,
     Num.float_le a 0 = false /\ d' = insert_expense now d day cat desc a img).

(** No stored expense has an amount [<= 0]. *)
Definition amounts_ok (d : db) : Prop :=
  forall r, In r (expenses d) -> Num.float_le (amount r) 0 = false.

End Observe.

(** Rows and forms to run the script on. *)
Module SampleApp.
Import Calendar IsoText Num Store Ui Forms Reports App SampleData.

Local Open Scope string_scope.

(** Tenths of the magnitude [m * 2 ^ e], correctly rounded. *)
Definition tenths (m : positive) (e : Z) : Z :=
  if (0 <=? e)%Z then Z.pos m * 2 ^ e * 10
  else Sample.round_half_even (Z.pos m * 10) (2 ^ (- e)).

(** [format(x, ".1f")] *)
Definition fixed1 (x : float) : string :=
  let sign (s : bool) := if s then "-" else "" in
  match Prim2SF x with
  | S754_nan => "nan"
  | S754_infinity s => sign s ++ "inf"
  | S754_zero s => sign s ++ "0.0"
  | S754_finite s m e =>
      let c := tenths m e in
      sign s ++ Sample.decimal (c / 10) ++ "." ++ zfill 1 (c mod 10)
  end.

Definition dashboard_format : DashboardFormat := {| format_1f := fixed1 |}.

Definition good_login : login_form := mklogin_form "driver" "spark123" true.
Definition bad_login : login_form := mklogin_form "driver" "Spark123" true.

(** 45 miles typed in, with odometer readings 100 and 200. *)
Definition typed_form : trip_form := mktrip_form mar_31 100 200 45 "typed" None true.

(** A receipt of 40 dollars. *)
Definition gas_form : expense_form :=
  mkexpense_form mar_31 "Gas" 40 "fuel" None true.

Definition this_year_form : report_form :=
  mkreport_form "This Year" mar_1 mar_1 true.

Definition march_form : report_form := mkreport_form "Custom" mar_1 mar_31 true.

(** A run with the Log Trip page selected and Save Trip pressed. *)
Definition trip_run : inputs :=
  mkinputs good_login "Log Trip" typed_form gas_form march_form false.

(** A run with Log Out pressed on the dashboard. *)
Definition logout_run : inputs :=
  mkinputs good_login "Dashboard" typed_form gas_form march_form true.

Definition signed_in : session := mksession (Some true).
Definition signed_out : session := mksession (Some false).

End SampleApp.

(** * Properties *)

(** ** The calendar *)

Module CalendarFacts.
Import Calendar.

Lemma valid_spec (d : date) :
  valid d = true <->
  1 <= year d <= 9999 /\ 1 <= month d <= 12 /\
  1 <= day d <= days_in_month (year d) (month d).
Proof.
  unfold valid, MINYEAR, MAXYEAR.
  rewrite !andb_true_iff, !Z.leb_le. lia.
Qed.

Lemma month_cases (m : Z) :
  1 <= m <= 12 ->
  m = 1 \/ m = 2 \/ m = 3 \/ m = 4 \/ m = 5 \/ m = 6 \/
  m = 7 \/ m = 8 \/ m = 9 \/ m = 10 \/ m = 11 \/ m = 12.
Proof. lia. Qed.

Ltac each_month m H :=
  destruct (month_cases m H)
    as [->|[->|[->|[->|[->|[->|[->|[->|[->|[->|[->| ->]]]]]]]]]]].

Lemma days_in_month_bounds (y m : Z) :
  1 <= m <= 12 -> 28 <= days_in_month y m <= 31.
Proof.
  intros H. each_month m H; cbn [days_in_month]; try destruct (is_leap y); lia.
Qed.

Lemma date_of_ok (y m d : Z) :
  valid (mkdate y m d) = true -> date_of y m d = Ok (mkdate y m d).
Proof. intros H. unfold date_of. cbv zeta. now rewrite H. Qed.

(** *** One day forward *)

Lemma tomorrow_same_month (d : date) :
  day d < days_in_month (year d) (month d) ->
  tomorrow d = Ok (mkdate (year d) (month d) (day d + 1)).
Proof.
  intros H. unfold tomorrow.
  destruct (Z.ltb_spec (day d) (days_in_month (year d) (month d)));
    [reflexivity | lia].
Qed.

Lemma tomorrow_next_month (d : date) :
  days_in_month (year d) (month d) <= day d -> month d < 12 ->
  tomorrow d = Ok (mkdate (year d) (month d + 1) 1).
Proof.
  intros H M. unfold tomorrow.
  destruct (Z.ltb_spec (day d) (days_in_month (year d) (month d))); [lia |].
  destruct (Z.ltb_spec (month d) 12); [reflexivity | lia].
Qed.

Lemma tomorrow_next_year (d : date) :
  days_in_month (year d) (month d) <= day d -> 12 <= month d ->
  year d < MAXYEAR ->
  tomorrow d = Ok (mkdate (year d + 1) 1 1).
Proof.
  intros H M Y. unfold tomorrow.
  destruct (Z.ltb_spec (day d) (days_in_month (year d) (month d))); [lia |].
  destruct (Z.ltb_spec (month d) 12); [lia |].
  destruct (Z.ltb_spec (year d) MAXYEAR); [reflexivity | lia].
Qed.

Lemma tomorrow_overflow (d : date) :
  days_in_month (year d) (month d) <= day d -> 12 <= month d ->
  MAXYEAR <= year d ->
  tomorrow d = Raise OverflowError.
Proof.
  intros H M Y. unfold tomorrow.
  destruct (Z.ltb_spec (day d) (days_in_month (year d) (month d))); [lia |].
  destruct (Z.ltb_spec (month d) 12); [lia |].
  destruct (Z.ltb_spec (year d) MAXYEAR); [lia | reflexivity].
Qed.

(** *** One day back *)

Lemma yesterday_same_month (d : date) :
  1 < day d -> yesterday d = Ok (mkdate (year d) (month d) (day d - 1)).
Proof.
  intros H. unfold yesterday.
  destruct (Z.ltb_spec 1 (day d)); [reflexivity | lia].
Qed.

Lemma yesterday_previous_month (d : date) :
  day d <= 1 -> 1 < month d ->
  yesterday d =
  Ok (mkdate (year d) (month d - 1) (days_in_month (year d) (month d - 1))).
Proof.
  intros H M. unfold yesterday.
  destruct (Z.ltb_spec 1 (day d)); [lia |].
  destruct (Z.ltb_spec 1 (month d)); [reflexivity | lia].
Qed.

Lemma yesterday_previous_year (d : date) :
  day d <= 1 -> month d <= 1 -> MINYEAR < year d ->
  yesterday d = Ok (mkdate (year d - 1) 12 31).
Proof.
  intros H M Y. unfold yesterday.
  destruct (Z.ltb_spec 1 (day d)); [lia |].
  destruct (Z.ltb_spec 1 (month d)); [lia |].
  destruct (Z.ltb_spec MINYEAR (year d)); [reflexivity | lia].
Qed.

Lemma yesterday_overflow (d : date) :
  day d <= 1 -> month d <= 1 -> year d <= MINYEAR ->
  yesterday d = Raise OverflowError.
Proof.
  intros H M Y. unfold yesterday.
  destruct (Z.ltb_spec 1 (day d)); [lia |].
  destruct (Z.ltb_spec 1 (month d)); [lia |].
  destruct (Z.ltb_spec MINYEAR (year d)); [lia | reflexivity].
Qed.

Lemma sub_days_1 (d : date) : sub_days d 1 = yesterday d.
Proof.
  unfold sub_days, add_days. change (0 <=? - (1)) with false. cbv iota.
  change (Z.to_nat (- - (1))) with 1%nat. cbn [step_days].
  destruct (yesterday d); reflexivity.
Qed.

(** *** Ordinals *)

Lemma days_before_year_succ (y : Z) :
  days_before_year (y + 1) =
  days_before_year y + (if is_leap y then 366 else 365).
Proof.
  unfold days_before_year, is_leap. cbv zeta.
  replace (y + 1 - 1) with y by lia.
  destruct (Z.eqb_spec (y mod 4) 0), (Z.eqb_spec (y mod 100) 0),
    (Z.eqb_spec (y mod 400) 0); cbn [andb orb negb];
    Z.div_mod_to_equations; lia.
Qed.

Lemma days_before_year_nonneg (y : Z) : 1 <= y -> 0 <= days_before_year y.
Proof.
  intros H. unfold days_before_year. cbv zeta.
  Z.div_mod_to_equations. lia.
Qed.

Lemma days_before_year_mono (a b : Z) :
  a <= b -> days_before_year a <= days_before_year b.
Proof.
  intros H. unfold days_before_year. cbv zeta.
  Z.div_mod_to_equations. lia.
Qed.

Lemma days_before_january (y : Z) : days_before_month y 1 = 0.
Proof. reflexivity. Qed.

Lemma days_before_december (y : Z) :
  days_before_month y 12 + 31 = if is_leap y then 366 else 365.
Proof. unfold days_before_month. cbn. destruct (is_leap y); reflexivity. Qed.

Lemma days_before_next_month (y m : Z) :
  1 <= m < 12 ->
  days_before_month y (m + 1) = days_before_month y m + days_in_month y m.
Proof.
  intros H. assert (M : 1 <= m <= 12) by lia.
  each_month m M; try lia; unfold days_before_month; cbn;
    destruct (is_leap y); reflexivity.
Qed.

Lemma days_before_previous_month (y m : Z) :
  1 < m <= 12 ->
  days_before_month y (m - 1) + days_in_month y (m - 1) = days_before_month y m.
Proof.
  intros H. rewrite <- days_before_next_month by lia. f_equal. lia.
Qed.

Lemma days_before_month_bounds (y m : Z) :
  1 <= m <= 12 ->
  0 <= days_before_month y m /\
  days_before_month y m + days_in_month y m <= (if is_leap y then 366 else 365).
Proof.
  intros M. each_month m M; unfold days_before_month; cbn;
    destruct (is_leap y); lia.
Qed.

Lemma days_before_month_mono (y a b : Z) :
  1 <= a <= 12 -> 1 <= b <= 12 -> a <= b ->
  days_before_month y a <= days_before_month y b.
Proof.
  intros A B. each_month a A; each_month b B; intros L; try lia;
    unfold days_before_month; cbn; destruct (is_leap y); lia.
Qed.

Lemma toordinal_lower (d : date) : valid d = true -> 1 <= toordinal d.
Proof.
  intros V. apply valid_spec in V. destruct V as (Y & M & D).
  unfold toordinal.
  pose proof (days_before_year_nonneg (year d)).
  pose proof (days_before_month_bounds (year d) (month d) M). lia.
Qed.

Lemma toordinal_upper (d : date) : valid d = true -> toordinal d <= MAXORDINAL.
Proof.
  intros V. apply valid_spec in V. destruct V as (Y & M & D).
  unfold toordinal.
  pose proof (days_before_month_bounds (year d) (month d) M) as B.
  pose proof (days_before_year_succ (year d)) as S.
  assert (L : days_before_year (year d + 1) <= days_before_year 10000)
    by (apply days_before_year_mono; lia).
  change (days_before_year 10000) with MAXORDINAL in L.
  destruct (is_leap (year d)); lia.
Qed.

(** A tomorrow that exists is a date, one ordinal further. *)
Lemma tomorrow_ok (d next : date) :
  valid d = true -> tomorrow d = Ok next ->
  valid next = true /\ toordinal next = toordinal d + 1.
Proof.
  intros V T. apply valid_spec in V. destruct V as (Y & M & D).
  unfold tomorrow, MAXYEAR in T.
  destruct (Z.ltb_spec (day d) (days_in_month (year d) (month d))).
  { injection T as <-. split.
    - apply valid_spec. cbn [year month day]. lia.
    - unfold toordinal. cbn [year month day]. lia. }
  destruct (Z.ltb_spec (month d) 12).
  { injection T as <-.
    assert (N : 1 <= month d + 1 <= 12) by lia.
    pose proof (days_in_month_bounds (year d) (month d + 1) N). split.
    - apply valid_spec. cbn [year month day]. lia.
    - unfold toordinal. cbn [year month day].
      rewrite days_before_next_month by lia. lia. }
  destruct (Z.ltb_spec (year d) 9999); [| discriminate].
  injection T as <-. split.
  - apply valid_spec. cbn [year month day days_in_month]. lia.
  - unfold toordinal. cbn [year month day].
    rewrite days_before_year_succ, days_before_january.
    assert (E : month d = 12) by lia. rewrite E in *.
    pose proof (days_before_december (year d)).
    cbn [days_in_month] in *. lia.
Qed.

(** Only 9999-12-31 has no tomorrow. *)
Lemma tomorrow_raise (d : date) (e : exn) :
  valid d = true -> tomorrow d = Raise e ->
  e = OverflowError /\ toordinal d = MAXORDINAL.
Proof.
  intros V T. apply valid_spec in V. destruct V as (Y & M & D).
  unfold tomorrow, MAXYEAR in T.
  destruct (Z.ltb_spec (day d) (days_in_month (year d) (month d)));
    [discriminate |].
  destruct (Z.ltb_spec (month d) 12); [discriminate |].
  destruct (Z.ltb_spec (year d) 9999); [discriminate |].
  injection T as <-. split; [reflexivity |].
  unfold toordinal.
  assert (Ey : year d = 9999) by lia. assert (Em : month d = 12) by lia.
  rewrite Ey, Em in *. cbn [days_in_month] in *.
  assert (Ed : day d = 31) by lia. rewrite Ed. reflexivity.
Qed.

Lemma yesterday_ok (d prev : date) :
  valid d = true -> yesterday d = Ok prev ->
  valid prev = true /\ toordinal prev = toordinal d - 1.
Proof.
  intros V T. apply valid_spec in V. destruct V as (Y & M & D).
  unfold yesterday, MINYEAR in T.
  destruct (Z.ltb_spec 1 (day d)).
  { injection T as <-. split.
    - apply valid_spec. cbn [year month day]. lia.
    - unfold toordinal. cbn [year month day]. lia. }
  destruct (Z.ltb_spec 1 (month d)).
  { injection T as <-.
    assert (N : 1 <= month d - 1 <= 12) by lia.
    pose proof (days_in_month_bounds (year d) (month d - 1) N). split.
    - apply valid_spec. cbn [year month day]. lia.
    - unfold toordinal. cbn [year month day].
      pose proof (days_before_previous_month (year d) (month d)). lia. }
  destruct (Z.ltb_spec 1 (year d)); [| discriminate].
  injection T as <-. split.
  - apply valid_spec. cbn [year month day days_in_month]. lia.
  - unfold toordinal. cbn [year month day].
    replace (days_before_year (year d))
      with (days_before_year (year d - 1 + 1)) by (f_equal; lia).
    rewrite days_before_year_succ.
    assert (E : month d = 1) by lia. rewrite E, days_before_january.
    pose proof (days_before_december (year d - 1)). lia.
Qed.

(** Only 0001-01-01 has no yesterday. *)
Lemma yesterday_raise (d : date) (e : exn) :
  valid d = true -> yesterday d = Raise e ->
  e = OverflowError /\ toordinal d = 1.
Proof.
  intros V T. apply valid_spec in V. destruct V as (Y & M & D).
  unfold yesterday, MINYEAR in T.
  destruct (Z.ltb_spec 1 (day d)); [discriminate |].
  destruct (Z.ltb_spec 1 (month d)); [discriminate |].
  destruct (Z.ltb_spec 1 (year d)); [discriminate |].
  injection T as <-. split; [reflexivity |].
  unfold toordinal.
  assert (Ey : year d = 1) by lia. assert (Em : month d = 1) by lia.
  assert (Ed : day d = 1) by lia. rewrite Ey, Em, Ed. reflexivity.
Qed.

Lemma step_tomorrow_ordinal (k : nat) (d : date) :
  valid d = true -> toordinal d + Z.of_nat k <= MAXORDINAL ->
  exists d', step_days tomorrow k d = Ok d' /\ valid d' = true /\
             toordinal d' = toordinal d + Z.of_nat k.
Proof.
  revert d. induction k as [| k IH]; intros d V U.
  - exists d. cbn [step_days]. repeat split; [assumption | lia].
  - destruct (tomorrow d) as [d1 | e] eqn:T.
    + destruct (tomorrow_ok d d1 V T) as (V1 & O1).
      destruct (IH d1 V1) as (d2 & S & V2 & O2); [lia |].
      exists d2. cbn [step_days]. rewrite T. cbn [bind].
      repeat split; [assumption | assumption | lia].
    + destruct (tomorrow_raise d e V T) as (_ & O). lia.
Qed.

Lemma step_tomorrow_overflow (k : nat) (d : date) :
  valid d = true -> MAXORDINAL < toordinal d + Z.of_nat k ->
  step_days tomorrow k d = Raise OverflowError.
Proof.
  revert d. induction k as [| k IH]; intros d V U.
  - pose proof (toordinal_upper d V). lia.
  - cbn [step_days]. destruct (tomorrow d) as [d1 | e] eqn:T; cbn [bind].
    + destruct (tomorrow_ok d d1 V T) as (V1 & O1). apply IH; [assumption | lia].
    + now destruct (tomorrow_raise d e V T) as (-> & _).
Qed.

Lemma step_yesterday_ordinal (k : nat) (d : date) :
  valid d = true -> 1 <= toordinal d - Z.of_nat k ->
  exists d', step_days yesterday k d = Ok d' /\ valid d' = true /\
             toordinal d' = toordinal d - Z.of_nat k.
Proof.
  revert d. induction k as [| k IH]; intros d V U.
  - exists d. cbn [step_days]. repeat split; [assumption | lia].
  - destruct (yesterday d) as [d1 | e] eqn:T.
    + destruct (yesterday_ok d d1 V T) as (V1 & O1).
      destruct (IH d1 V1) as (d2 & S & V2 & O2); [lia |].
      exists d2. cbn [step_days]. rewrite T. cbn [bind].
      repeat split; [assumption | assumption | lia].
    + destruct (yesterday_raise d e V T) as (_ & O). lia.
Qed.

Lemma step_yesterday_overflow (k : nat) (d : date) :
  valid d = true -> toordinal d - Z.of_nat k < 1 ->
  step_days yesterday k d = Raise OverflowError.
Proof.
  revert d. induction k as [| k IH]; intros d V U.
  - pose proof (toordinal_lower d V). lia.
  - cbn [step_days]. destruct (yesterday d) as [d1 | e] eqn:T; cbn [bind].
    + destruct (yesterday_ok d d1 V T) as (V1 & O1). apply IH; [assumption | lia].
    + now destruct (yesterday_raise d e V T) as (-> & _).
Qed.

(** [d + timedelta(days=n)] is the date of ordinal [toordinal d + n] ... *)
Lemma add_days_ordinal (d : date) (n : Z) :
  valid d = true -> 1 <= toordinal d + n <= MAXORDINAL ->
  exists d', add_days d n = Ok d' /\ valid d' = true /\
             toordinal d' = toordinal d + n.
Proof.
  intros V B. unfold add_days. destruct (Z.leb_spec 0 n) as [P | P].
  - destruct (step_tomorrow_ordinal (Z.to_nat n) d V) as (d' & S & V' & O);
      [lia |].
    exists d'. repeat split; [assumption | assumption | lia].
  - destruct (step_yesterday_ordinal (Z.to_nat (- n)) d V) as (d' & S & V' & O);
      [lia |].
    exists d'. repeat split; [assumption | assumption | lia].
Qed.

(** ... and OverflowError when there is no such date. *)
Lemma add_days_overflow (d : date) (n : Z) :
  valid d = true -> toordinal d + n < 1 \/ MAXORDINAL < toordinal d + n ->
  add_days d n = Raise OverflowError.
Proof.
  intros V B. pose proof (toordinal_lower d V). pose proof (toordinal_upper d V).
  unfold add_days. destruct (Z.leb_spec 0 n) as [P | P].
  - apply step_tomorrow_overflow; [assumption | lia].
  - apply step_yesterday_overflow; [assumption | lia].
Qed.

(** *** The order of dates *)

Lemma date_compare_antisym (a b : date) :
  date_compare a b = CompOpp (date_compare b a).
Proof.
  unfold date_compare.
  rewrite (Z.compare_antisym (year b)), (Z.compare_antisym (month b)),
    (Z.compare_antisym (day b)).
  destruct (year b ?= year a), (month b ?= month a), (day b ?= day a);
    reflexivity.
Qed.

Lemma date_ltb_not_leb (a b : date) :
  date_ltb a b = true -> date_leb b a = false.
Proof.
  unfold date_ltb, date_leb. rewrite (date_compare_antisym b a).
  destruct (date_compare a b); easy.
Qed.

Lemma date_leb_refl (a : date) : date_leb a a = true.
Proof.
  unfold date_leb, date_compare. now rewrite !Z.compare_refl.
Qed.

Lemma toordinal_year_lt (a b : date) :
  valid a = true -> valid b = true -> year a < year b ->
  toordinal a < toordinal b.
Proof.
  intros A B L. apply valid_spec in A. apply valid_spec in B.
  destruct A as (Ya & Ma & Da), B as (Yb & Mb & Db). unfold toordinal.
  pose proof (days_before_month_bounds (year a) (month a) Ma).
  pose proof (days_before_month_bounds (year b) (month b) Mb).
  pose proof (days_before_year_succ (year a)).
  assert (days_before_year (year a + 1) <= days_before_year (year b))
    by (apply days_before_year_mono; lia).
  destruct (is_leap (year a)); lia.
Qed.

Lemma toordinal_month_lt (a b : date) :
  valid a = true -> valid b = true -> year a = year b -> month a < month b ->
  toordinal a < toordinal b.
Proof.
  intros A B E L. apply valid_spec in A. apply valid_spec in B.
  destruct A as (Ya & Ma & Da), B as (Yb & Mb & Db). unfold toordinal.
  rewrite <- E.
  assert (N : 1 <= month a + 1 <= 12) by lia.
  pose proof (days_before_month_mono (year a) (month a + 1) (month b) N Mb).
  rewrite days_before_next_month in * by lia. lia.
Qed.

(** Dates are ordered as their ordinals are; so a date is determined by its
    ordinal. *)
Lemma toordinal_compare (a b : date) :
  valid a = true -> valid b = true ->
  (toordinal a ?= toordinal b) = date_compare a b.
Proof.
  intros A B. unfold date_compare.
  destruct (Z.compare_spec (year a) (year b)) as [Ey | Ly | Gy].
  - destruct (Z.compare_spec (month a) (month b)) as [Em | Lm | Gm].
    + unfold toordinal. rewrite Ey, Em. apply Z.add_compare_mono_l.
    + now apply Z.compare_lt_iff, toordinal_month_lt.
    + now apply Z.compare_gt_iff, toordinal_month_lt.
  - now apply Z.compare_lt_iff, toordinal_year_lt.
  - now apply Z.compare_gt_iff, toordinal_year_lt.
Qed.

(** The next day is later in the calendar. *)
Lemma tomorrow_later (d next : date) :
  tomorrow d = Ok next -> date_ltb d next = true.
Proof.
  assert (S : forall x, (x ?= x + 1) = Lt)
    by (intros x; apply Z.compare_lt_iff; lia).
  unfold tomorrow, date_ltb, date_compare.
  destruct (day d <? days_in_month (year d) (month d)).
  { intros [= <-]. cbn [year month day]. now rewrite !Z.compare_refl, S. }
  destruct (month d <? 12).
  { intros [= <-]. cbn [year month day]. now rewrite Z.compare_refl, S. }
  destruct (year d <? MAXYEAR); [| discriminate].
  intros [= <-]. cbn [year month day]. now rewrite S.
Qed.

(** *** The end of a month *)

Ltac step_tomorrow :=
  first
    [ rewrite tomorrow_same_month by (cbn [year month day days_in_month]; lia)
    | rewrite tomorrow_next_month by (cbn [year month day days_in_month]; lia)
    | rewrite tomorrow_next_year by (cbn [year month day days_in_month]; lia) ];
  cbn [bind step_days year month day].

(** Four days after the 28th is a day of the next month. *)
Lemma add_4_to_28 (y m : Z) :
  1 <= m <= 12 -> y < MAXYEAR \/ m < 12 ->
  add_days (mkdate y m 28) 4 =
  Ok (mkdate (fst (month_after y m)) (snd (month_after y m))
             (32 - days_in_month y m)).
Proof.
  intros M Y. unfold add_days. change (0 <=? 4) with true. cbv iota.
  change (Z.to_nat 4) with 4%nat.
  pose proof (days_in_month_bounds y m M) as B.
  unfold month_after.
  destruct (Z.ltb_spec m 12) as [L | L]; cbn [fst snd step_days bind].
  - assert (N : 1 <= m + 1 <= 12) by lia.
    pose proof (days_in_month_bounds y (m + 1) N) as B'.
    assert (C : days_in_month y m = 28 \/ days_in_month y m = 29 \/
                days_in_month y m = 30 \/ days_in_month y m = 31) by lia.
    destruct C as [C | [C | [C | C]]]; rewrite C;
      do 4 step_tomorrow; reflexivity.
  - assert (m = 12) by lia. subst m. cbn [days_in_month] in *.
    do 4 step_tomorrow. reflexivity.
Qed.

(** In December 9999 it is past the last date. *)
Lemma add_4_to_28_overflow :
  add_days (mkdate 9999 12 28) 4 = Raise OverflowError.
Proof. reflexivity. Qed.

(** The day before the first of the next month is the last of this one. *)
Lemma yesterday_of_first (y m : Z) :
  MINYEAR <= y -> 1 <= m <= 12 ->
  yesterday (mkdate (fst (month_after y m)) (snd (month_after y m)) 1) =
  Ok (mkdate y m (days_in_month y m)).
Proof.
  intros Y M. unfold month_after, MINYEAR in *.
  destruct (Z.ltb_spec m 12) as [L | L]; cbn [fst snd].
  - rewrite yesterday_previous_month by (cbn [year month day]; lia).
    cbn [year month day]. now replace (m + 1 - 1) with m by lia.
  - assert (m = 12) by lia. subst m.
    rewrite yesterday_previous_year
      by (cbn [year month day]; unfold MINYEAR; lia).
    cbn [year month day days_in_month]. now replace (y + 1 - 1) with y by lia.
Qed.

Lemma toordinal_before_december (d : date) :
  valid d = true -> before_december_9999 d ->
  toordinal d + 31 <= MAXORDINAL.
Proof.
  intros V B. apply valid_spec in V. destruct V as (Y & M & D).
  unfold before_december_9999, MAXYEAR in B. unfold toordinal.
  pose proof (days_before_month_bounds (year d) (month d) M) as K.
  destruct (Z_lt_ge_dec (year d) 9999) as [A | A].
  - pose proof (days_before_year_succ (year d)) as S.
    assert (L : days_before_year (year d + 1) <= days_before_year 9999)
      by (apply days_before_year_mono; lia).
    change (days_before_year 9999) with 3651694 in L. unfold MAXORDINAL.
    destruct (is_leap (year d)); lia.
  - assert (E : year d = 9999) by lia. rewrite E in *.
    assert (N : 1 <= month d + 1 <= 12) by lia.
    assert (T : 1 <= 12 <= 12) by lia.
    pose proof (days_before_month_mono 9999 (month d + 1) 12 N T) as P.
    rewrite days_before_next_month in P by lia.
    change (days_before_month 9999 12) with 334 in P.
    change (days_before_year 9999) with 3651694. unfold MAXORDINAL. lia.
Qed.

End CalendarFacts.

(** ** ISO text *)

Module TextFacts.
Import Calendar IsoText CalendarFacts.

Lemma ascii_compare_N (a b : ascii) :
  Ascii.compare a b = N.compare (N_of_ascii a) (N_of_ascii b).
Proof. reflexivity. Qed.

Lemma ascii_compare_refl (c : ascii) : Ascii.compare c c = Eq.
Proof. rewrite ascii_compare_N. apply N.compare_refl. Qed.

Lemma digit_code (n : Z) :
  0 <= n < 10 -> N_of_ascii (digit n) = (48 + Z.to_N n)%N.
Proof. intros H. unfold digit. apply N_ascii_embedding. lia. Qed.

(** Digits are ordered as their characters are. *)
Lemma digit_compare (a b : Z) :
  0 <= a < 10 -> 0 <= b < 10 ->
  Ascii.compare (digit a) (digit b) = (a ?= b).
Proof.
  intros A B. rewrite ascii_compare_N, !digit_code by assumption.
  rewrite <- N2Z.inj_compare, !N2Z.inj_add, !Z2N.id by lia.
  apply Z.add_compare_mono_l.
Qed.

(** Comparing two numbers by quotient, then by remainder. *)
Lemma compare_quot_rem (p qa ra qb rb : Z) :
  0 <= ra < p -> 0 <= rb < p ->
  (qa * p + ra ?= qb * p + rb) =
  match qa ?= qb with
  | Eq => ra ?= rb
  | c => c
  end.
Proof.
  intros A B. destruct (Z.compare_spec qa qb) as [E | L | G].
  - subst qb. apply Z.add_compare_mono_l.
  - apply Z.compare_lt_iff. nia.
  - apply Z.compare_gt_iff. nia.
Qed.

(** Zero-padded numerals of one width are ordered as their numbers are. *)
Lemma zfill_compare (w : nat) (a b : Z) :
  0 <= a < 10 ^ Z.of_nat w -> 0 <= b < 10 ^ Z.of_nat w ->
  String.compare (zfill w a) (zfill w b) = (a ?= b).
Proof.
  revert a b. induction w as [| k IH]; intros a b A B.
  - change (10 ^ Z.of_nat 0) with 1 in *.
    assert (a = 0) by lia. assert (b = 0) by lia. subst. reflexivity.
  - rewrite Nat2Z.inj_succ, Z.pow_succ_r in A, B by lia.
    assert (P : 0 < 10 ^ Z.of_nat k) by (apply Z.pow_pos_nonneg; lia).
    cbn [zfill String.compare].
    rewrite digit_compare
      by (split; [apply Z.div_pos | apply Z.div_lt_upper_bound]; lia).
    rewrite IH by (apply Z.mod_pos_bound; lia).
    rewrite (Z.div_mod a (10 ^ Z.of_nat k)) at 3 by lia.
    rewrite (Z.div_mod b (10 ^ Z.of_nat k)) at 3 by lia.
    rewrite !(Z.mul_comm (10 ^ Z.of_nat k)).
    symmetry. apply compare_quot_rem; apply Z.mod_pos_bound; lia.
Qed.

Lemma zfill_length (w : nat) (n : Z) : String.length (zfill w n) = w.
Proof.
  revert n. induction w as [| k IH]; intros n; cbn [zfill String.length];
    [reflexivity | now rewrite IH].
Qed.

Lemma compare_append (s1 s2 t1 t2 : string) :
  String.length s1 = String.length s2 ->
  String.compare (s1 ++ t1) (s2 ++ t2) =
  match String.compare s1 s2 with
  | Eq => String.compare t1 t2
  | c => c
  end.
Proof.
  revert s2. induction s1 as [| c s1 IH]; intros [| c' s2] L;
    try discriminate; cbn [String.append String.compare].
  - reflexivity.
  - destruct (Ascii.compare c c'); [apply IH; now injection L | reflexivity ..].
Qed.

Lemma compare_cons (c : ascii) (s t : string) :
  String.compare (String c s) (String c t) = String.compare s t.
Proof. cbn [String.compare]. now rewrite ascii_compare_refl. Qed.

(** ISO-8601 text is ordered as the dates are. *)
Lemma isoformat_compare (a b : date) :
  valid a = true -> valid b = true ->
  String.compare (isoformat a) (isoformat b) = date_compare a b.
Proof.
  intros A B. apply valid_spec in A. apply valid_spec in B.
  destruct A as (Ya & Ma & Da), B as (Yb & Mb & Db).
  pose proof (days_in_month_bounds (year a) (month a) Ma).
  pose proof (days_in_month_bounds (year b) (month b) Mb).
  unfold isoformat, date_compare.
  rewrite compare_append by now rewrite !zfill_length.
  rewrite zfill_compare by (change (10 ^ Z.of_nat 4) with 10000; lia).
  destruct (year a ?= year b); try reflexivity.
  change ("-" ++ ?s)%string with (String "-" s). rewrite compare_cons.
  rewrite compare_append by now rewrite !zfill_length.
  rewrite zfill_compare by (change (10 ^ Z.of_nat 2) with 100; lia).
  destruct (month a ?= month b); try reflexivity.
  change ("-" ++ ?s)%string with (String "-" s). rewrite compare_cons.
  apply zfill_compare; change (10 ^ Z.of_nat 2) with 100; lia.
Qed.

Lemma iso_le (a b : date) :
  valid a = true -> valid b = true ->
  str_le (isoformat a) (isoformat b) = date_leb a b.
Proof.
  intros A B. unfold str_le, String.leb, date_leb.
  now rewrite isoformat_compare.
Qed.

Lemma str_le_refl (a : string) : str_le a a = true.
Proof.
  unfold str_le, String.leb.
  induction a as [| x a IH]; cbn [String.compare]; [reflexivity |].
  now rewrite ascii_compare_refl.
Qed.

Lemma str_le_trans (a b c : string) :
  str_le a b = true -> str_le b c = true -> str_le a c = true.
Proof.
  unfold str_le, String.leb. revert b c.
  induction a as [| x a IH]; intros [| y b] [| z c]; cbn [String.compare];
    try easy.
  rewrite !ascii_compare_N.
  destruct (N.compare_spec (N_of_ascii x) (N_of_ascii y)) as [E1 | L1 | G1];
    destruct (N.compare_spec (N_of_ascii y) (N_of_ascii z)) as [E2 | L2 | G2];
    destruct (N.compare_spec (N_of_ascii x) (N_of_ascii z)) as [E3 | L3 | G3];
    try easy; try lia.
  apply IH.
Qed.


(** [s[:n]] has [n] characters, or all of [s]. *)
Lemma slice_to_len (n : nat) (s : string) :
  str_len (slice_to n s) = Nat.min n (str_len s).
Proof.
  revert n. induction s as [| b r IH]; intros n; cbn [slice_to str_len].
  - now rewrite Nat.min_0_r.
  - destruct (is_cont b) eqn:C.
    + cbn [str_len]. rewrite C. apply IH.
    + destruct n as [| k]; [reflexivity |].
      cbn [str_len]. rewrite C, IH. reflexivity.
Qed.

(** A text of at most [n] characters is its own slice. *)
Lemma slice_to_short (n : nat) (s : string) :
  (str_len s <= n)%nat -> slice_to n s = s.
Proof.
  revert n. induction s as [| b r IH]; intros n L; cbn [slice_to];
    [reflexivity |].
  cbn [str_len] in L. destruct (is_cont b).
  - now rewrite IH.
  - destruct n as [| k]; [lia |]. rewrite IH by lia. reflexivity.
Qed.

(** A slice of a text that Latin-1 encodes is encoded too. *)
Lemma slice_to_latin1 (n : nat) (s : string) :
  latin1 s = true -> latin1 (slice_to n s) = true.
Proof.
  revert n. induction s as [| b r IH]; intros n L; cbn [slice_to];
    [reflexivity |].
  cbn [latin1] in L. apply andb_true_iff in L. destruct L as [L1 L2].
  destruct (is_cont b).
  - cbn [latin1]. now rewrite L1, IH.
  - destruct n as [| k]; [reflexivity |]. cbn [latin1]. now rewrite L1, IH.
Qed.

End TextFacts.

(** ** Float comparisons *)

Module FloatFacts.
Import Num.

Lemma SFcompare_antisym (x y : spec_float) :
  SFcompare y x = option_map CompOpp (SFcompare x y).
Proof.
  destruct x as [sx | sx | | sx mx ex], y as [sy | sy | | sy my ey];
    cbn [SFcompare option_map]; try reflexivity;
    try (destruct sx; reflexivity); try (destruct sy; reflexivity);
    try (destruct sx, sy; reflexivity).
  rewrite (Z.compare_antisym ex ey).
  replace (Pos.compare_cont Eq my mx) with (CompOpp (Pos.compare_cont Eq mx my))
    by apply (Pos.compare_cont_antisym mx my Eq).
  destruct sx, sy; cbn [CompOpp]; try reflexivity;
    destruct (ex ?= ey); cbn [CompOpp]; try reflexivity;
    destruct (Pos.compare_cont Eq mx my); reflexivity.
Qed.

(** [a <= b] excludes [a > b]. *)
Lemma float_le_not_gt (a b : float) :
  float_le a b = true -> float_gt a b = false.
Proof.
  unfold float_le, float_gt. rewrite leb_spec, ltb_spec. unfold SFleb, SFltb.
  rewrite (SFcompare_antisym (Prim2SF a) (Prim2SF b)).
  destruct (SFcompare (Prim2SF a) (Prim2SF b)) as [[| |] |]; easy.
Qed.

(** Above a reading that is not negative is above zero. *)
Lemma float_gt_nonneg (lo hi : float) :
  float_le 0 lo = true -> float_gt hi lo = true -> float_gt hi 0 = true.
Proof.
  unfold float_le, float_gt. rewrite leb_spec, !ltb_spec.
  change (Prim2SF 0) with (S754_zero false). unfold SFleb, SFltb.
  destruct (Prim2SF lo) as [sl | sl | | sl ml el],
    (Prim2SF hi) as [sh | sh | | sh mh eh];
    cbn [SFcompare]; try easy;
    try destruct sl; try destruct sh; easy.
Qed.

End FloatFacts.

(** ** The Range Resolver *)

Module Resolver.
Import Calendar IsoText Reports CalendarFacts SampleData.

Local Open Scope string_scope.
Local Open Scope Z_scope.

(** "This Week (Mon-Sun)": the Monday on or before today and the Sunday six
    days later. *)
Lemma this_week_range (today : date) :
  valid today = true -> before_december_9999 today ->
  exists start end_,
    get_quick_range today "This Week (Mon-Sun)" = Ok (start, end_) /\
    weekday start = 0 /\
    toordinal start <= toordinal today <= toordinal end_ /\
    toordinal end_ = toordinal start + 6.
Proof.
  intros V B.
  pose proof (toordinal_lower today V) as L.
  pose proof (toordinal_before_december today V B) as U.
  assert (W : 0 <= weekday today < 7) by (apply Z.mod_pos_bound; lia).
  assert (W1 : weekday today <= toordinal today - 1).
  { unfold weekday in *. Z.div_mod_to_equations. lia. }
  destruct (add_days_ordinal today (- weekday today) V) as (s & S & Vs & Os);
    [lia |].
  destruct (add_days_ordinal s 6 Vs) as (e & E & Ve & Oe); [lia |].
  exists s, e.
  change (get_quick_range today "This Week (Mon-Sun)") with
    (start <- sub_days today (weekday today) ;;
     end_ <- add_days start 6 ;;
     Ok (start, end_)).
  unfold sub_days. rewrite S. cbn [bind]. rewrite E. cbn [bind].
  repeat split; try lia.
  unfold weekday in *. rewrite Os. Z.div_mod_to_equations. lia.
Qed.

(** "This Year": January 1st to December 31st. *)
Lemma this_year_range (today : date) :
  valid today = true ->
  get_quick_range today "This Year" =
  Ok (mkdate (year today) 1 1, mkdate (year today) 12 31).
Proof.
  intros V. apply valid_spec in V. destruct V as (Y & M & D).
  change (get_quick_range today "This Year") with
    (start <- date_of (year today) 1 1 ;;
     end_ <- date_of (year today) 12 31 ;;
     Ok (start, end_)).
  rewrite !date_of_ok
    by (apply valid_spec; cbn [year month day days_in_month]; lia).
  reflexivity.
Qed.

(** "This Month": four days after the 28th lie in the next month, and the
    day before the first of that month is the last day of this one. *)
Lemma month_branch (today : date) :
  valid today = true -> before_december_9999 today ->
  get_quick_range today "This Month" =
  Ok (mkdate (year today) (month today) 1,
      mkdate (year today) (month today)
             (days_in_month (year today) (month today))).
Proof.
  intros V B. pose proof V as V'. apply valid_spec in V'.
  destruct V' as (Y & M & D). unfold before_december_9999 in B.
  destruct today as [y m n]. cbn [year month day] in *.
  pose proof (days_in_month_bounds y m M) as L.
  change (get_quick_range (mkdate y m n) "This Month") with
    (start <- replace_day (mkdate y m n) 1 ;;
     e28 <- date_of y m 28 ;;
     next <- add_days e28 4 ;;
     first <- replace_day next 1 ;;
     end_ <- sub_days first 1 ;;
     Ok (start, end_)).
  unfold replace_day. cbn [year month day].
  rewrite !date_of_ok by (apply valid_spec; cbn [year month day]; lia).
  cbn [bind]. rewrite add_4_to_28 by assumption. cbn [bind year month day].
  assert (N : 1 <= snd (month_after y m) <= 12 /\
              1 <= fst (month_after y m) <= 9999).
  { unfold month_after, MAXYEAR in *.
    destruct (Z.ltb_spec m 12); cbn [fst snd]; lia. }
  pose proof (days_in_month_bounds (fst (month_after y m)) _ (proj1 N)).
  rewrite date_of_ok by (apply valid_spec; cbn [year month day]; lia).
  cbn [bind]. rewrite sub_days_1, yesterday_of_first by (unfold MINYEAR; lia).
  reflexivity.
Qed.

(** C3, as the code has it: on every day but those of December 9999,
    "This Month" runs from the first day of today's month to its last day,
    found as the day before the first of the month that holds the 28th plus
    four days; on 2024-02-15 that is 2024-02-01 to 2024-02-29, on
    2023-02-15 it is 2023-02-01 to 2023-02-28. *)
Theorem this_month_range :
  (forall today, valid today = true -> before_december_9999 today ->
     get_quick_range today "This Month" =
     Ok (mkdate (year today) (month today) 1,
         mkdate (year today) (month today)
                (days_in_month (year today) (month today)))) /\
  get_quick_range (mkdate 2024 2 15) "This Month"
  = Ok (mkdate 2024 2 1, mkdate 2024 2 29) /\
  get_quick_range (mkdate 2023 2 15) "This Month"
  = Ok (mkdate 2023 2 1, mkdate 2023 2 28).
Proof.
  split; [exact month_branch |].
  split; [exact (month_branch (mkdate 2024 2 15) eq_refl (or_introl eq_refl)) |].
  exact (month_branch (mkdate 2023 2 15) eq_refl (or_introl eq_refl)).
Qed.

(** Today = 2024-12-31: the 28th plus four days is in January 2025. *)
Lemma this_month_2024_12_31 :
  get_quick_range (mkdate 2024 12 31) "This Month"
  = Ok (mkdate 2024 12 1, mkdate 2024 12 31).
Proof.
  exact (proj1 this_month_range (mkdate 2024 12 31) eq_refl (or_introl eq_refl)).
Defined.

(** In December 9999 the 28th plus four days is past [date.max]. *)
Lemma this_month_overflow (today : date) :
  valid today = true -> ~ before_december_9999 today ->
  get_quick_range today "This Month" = Raise OverflowError.
Proof.
  intros V B. apply valid_spec in V. destruct V as (Y & M & D).
  unfold before_december_9999, MAXYEAR in B.
  assert (Ey : year today = 9999) by lia.
  assert (Em : month today = 12) by lia.
  destruct today as [y m n]. cbn [year month day] in *. subst y m.
  cbn [days_in_month] in D.
  change (get_quick_range (mkdate 9999 12 n) "This Month") with
    (start <- replace_day (mkdate 9999 12 n) 1 ;;
     e28 <- date_of 9999 12 28 ;;
     next <- add_days e28 4 ;;
     first <- replace_day next 1 ;;
     end_ <- sub_days first 1 ;;
     Ok (start, end_)).
  unfold replace_day. cbn [year month day].
  rewrite !date_of_ok by reflexivity. cbn [bind].
  now rewrite add_4_to_28_overflow.
Qed.

(** C3, as the spec has it, fails on 9999-12-15. *)
Lemma this_month_fails_in_december_9999 :
  valid (mkdate 9999 12 15) = true /\
  get_quick_range (mkdate 9999 12 15) "This Month" = Raise OverflowError.
Proof. split; reflexivity. Qed.

Lemma unrecognized_is_today (today : date) (name : string) :
  name <> "This Week (Mon-Sun)" -> name <> "This Month" -> name <> "This Year" ->
  get_quick_range today name = Ok (today, today).
Proof.
  intros W M Y. unfold get_quick_range.
  destruct (String.eqb_spec name "This Week (Mon-Sun)"); [contradiction |].
  destruct (String.eqb_spec name "This Month"); [contradiction |].
  destruct (String.eqb_spec name "This Year"); [contradiction |].
  reflexivity.
Qed.

(** C9, as the code has it: a name that is none of the three the resolver
    knows gives start = end = today, with no error; for every name
    whatsoever the resolver returns a range, with no error, on every day but
    those of December 9999. *)
Theorem quick_range_fallback_and_totality (today : date) (name : string) :
  (name <> "This Week (Mon-Sun)" -> name <> "This Month" ->
   name <> "This Year" ->
   get_quick_range today name = Ok (today, today)) /\
  (valid today = true -> before_december_9999 today ->
   exists start end_, get_quick_range today name = Ok (start, end_)).
Proof.
  split; [apply unrecognized_is_today |].
  intros V B.
  destruct (string_dec name "This Week (Mon-Sun)") as [-> | W].
  { destruct (this_week_range today V B) as (s & e & H & _). now exists s, e. }
  destruct (string_dec name "This Month") as [-> | M].
  { rewrite month_branch by assumption. eauto. }
  destruct (string_dec name "This Year") as [-> | Y].
  { rewrite this_year_range by assumption. eauto. }
  rewrite unrecognized_is_today by assumption. eauto.
Qed.

(** On 2024-03-31 "Custom", which the resolver does not know, gives today
    twice, and "This Week (Mon-Sun)" gives a range. *)
Lemma quick_range_on_2024_03_31 :
  get_quick_range mar_31 "Custom" = Ok (mar_31, mar_31) /\
  exists start end_,
    get_quick_range mar_31 "This Week (Mon-Sun)" = Ok (start, end_).
Proof.
  split.
  - apply (proj1 (quick_range_fallback_and_totality mar_31 "Custom"));
      discriminate.
  - apply (proj2 (quick_range_fallback_and_totality mar_31 "This Week (Mon-Sun)")).
    + reflexivity.
    + left. reflexivity.
Defined.

(** C9, as the spec has it, fails on 9999-12-28: the Sunday of that week
    is past [date.max]. *)
Lemma this_week_fails_at_the_end_of_9999 :
  valid (mkdate 9999 12 28) = true /\
  get_quick_range (mkdate 9999 12 28) "This Week (Mon-Sun)"
  = Raise OverflowError.
Proof. split; reflexivity. Qed.

End Resolver.

(** ** The Aggregator *)

Module Aggregator.
Import Calendar IsoText Num Store Ui Reports CalendarFacts TextFacts SampleData.

Local Open Scope string_scope.
Local Open Scope Z_scope.

(** The guard on an empty frame changes nothing: the frame is filtered. *)
Lemma filter_trips_filter (trips : list trip) (start end_ : date) :
  filter_trips trips start end_ =
  filter (fun r => str_le (isoformat start) (trip_date r)
                   && str_le (trip_date r) (isoformat end_)) trips.
Proof. unfold filter_trips, str_ge. now destruct trips. Qed.

Lemma filter_expenses_filter (expenses : list expense) (start end_ : date) :
  filter_expenses expenses start end_ =
  filter (fun r => str_le (isoformat start) (expense_date r)
                   && str_le (expense_date r) (isoformat end_)) expenses.
Proof. unfold filter_expenses, str_ge. now destruct expenses. Qed.

(** A row is kept when its text lies between the two ISO texts. *)
Lemma filter_trips_In (trips : list trip) (start end_ : date) (r : trip) :
  In r (filter_trips trips start end_) <->
  In r trips /\ str_le (isoformat start) (trip_date r) = true
             /\ str_le (trip_date r) (isoformat end_) = true.
Proof.
  rewrite filter_trips_filter, filter_In, andb_true_iff. reflexivity.
Qed.

Lemma filter_expenses_In
    (expenses : list expense) (start end_ : date) (r : expense) :
  In r (filter_expenses expenses start end_) <->
  In r expenses /\ str_le (isoformat start) (expense_date r) = true
                /\ str_le (expense_date r) (isoformat end_) = true.
Proof.
  rewrite filter_expenses_filter, filter_In, andb_true_iff. reflexivity.
Qed.

(** C2: the filter keeps the rows, in their order, whose text lies between
    the ISO texts of start and end in the lexicographic order; for a row
    dated [d] that is [start <= d <= end] in the calendar, both ends
    included, for trips and for expenses.  So a trip dated end is kept (when
    start is not after end) and a trip dated the day after end is dropped. *)
Theorem filter_inclusive_range
    (trips : list trip) (expenses : list expense) (start end_ : date) :
  valid start = true -> valid end_ = true ->
  filter_trips trips start end_
  = filter (fun r => String.leb (isoformat start) (trip_date r)
                     && String.leb (trip_date r) (isoformat end_)) trips /\
  filter_expenses expenses start end_
  = filter (fun r => String.leb (isoformat start) (expense_date r)
                     && String.leb (expense_date r) (isoformat end_)) expenses /\
  (forall r d, valid d = true -> trip_date r = isoformat d ->
     (In r (filter_trips trips start end_) <->
      In r trips /\ date_leb start d = true /\ date_leb d end_ = true)) /\
  (forall r d, valid d = true -> expense_date r = isoformat d ->
     (In r (filter_expenses expenses start end_) <->
      In r expenses /\ date_leb start d = true /\ date_leb d end_ = true)) /\
  (forall r, In r trips -> trip_date r = isoformat end_ ->
     date_leb start end_ = true -> In r (filter_trips trips start end_)) /\
  (forall r next, tomorrow end_ = Ok next -> trip_date r = isoformat next ->
     ~ In r (filter_trips trips start end_)).
Proof.
  intros Vs Ve.
  assert (T : forall r d, valid d = true -> trip_date r = isoformat d ->
     (In r (filter_trips trips start end_) <->
      In r trips /\ date_leb start d = true /\ date_leb d end_ = true)).
  { intros r d Vd E. rewrite filter_trips_In, E, !iso_le by assumption.
    reflexivity. }
  split; [apply filter_trips_filter |].
  split; [apply filter_expenses_filter |].
  split; [exact T |]. split; [| split].
  - intros r d Vd E. rewrite filter_expenses_In, E, !iso_le by assumption.
    reflexivity.
  - intros r I E L. apply (T r end_ Ve E). auto using date_leb_refl.
  - intros r next N E I.
    destruct (tomorrow_ok end_ next Ve N) as (Vn & _).
    apply (T r next Vn E) in I. destruct I as (_ & _ & L).
    rewrite (date_ltb_not_leb end_ next (tomorrow_later end_ next N)) in L.
    discriminate.
Qed.

(** March 2024: the trip of 2024-03-31 is kept, the trip of 2024-04-01 is
    not. *)
Lemma march_2024_boundaries :
  In trip_mar_31 (filter_trips trips_df mar_1 mar_31) /\
  ~ In trip_apr_1 (filter_trips trips_df mar_1 mar_31).
Proof.
  destruct (filter_inclusive_range trips_df expenses_df mar_1 mar_31
              eq_refl eq_refl) as (_ & _ & _ & _ & Kept & Dropped).
  split.
  - apply Kept; [right; left |..]; reflexivity.
  - apply (Dropped trip_apr_1 apr_1); reflexivity.
Defined.

Lemma filter_none {A : Type} (f : A -> bool) (l : list A) :
  (forall x, In x l -> f x = false) -> filter f l = [].
Proof.
  induction l as [| x l IH]; intros H; cbn [filter]; [reflexivity |].
  rewrite (H x) by now left. apply IH. intros y I. apply H. now right.
Qed.

(** No text lies between the ISO texts of an inverted range. *)
Lemma inverted_range_excludes (start end_ : date) (s : string) :
  valid start = true -> valid end_ = true -> date_ltb end_ start = true ->
  str_le (isoformat start) s && str_le s (isoformat end_) = false.
Proof.
  intros Vs Ve L. apply not_true_is_false. intros H.
  apply andb_true_iff in H. destruct H as (H1 & H2).
  pose proof (str_le_trans _ _ _ H1 H2) as H.
  rewrite iso_le, (date_ltb_not_leb end_ start L) in H by assumption.
  discriminate.
Qed.

Lemma inverted_range_trips (trips : list trip) (start end_ : date) :
  valid start = true -> valid end_ = true -> date_ltb end_ start = true ->
  filter_trips trips start end_ = [].
Proof.
  intros Vs Ve L. rewrite filter_trips_filter. apply filter_none.
  intros r _. now apply inverted_range_excludes.
Qed.

Lemma inverted_range_expenses (expenses : list expense) (start end_ : date) :
  valid start = true -> valid end_ = true -> date_ltb end_ start = true ->
  filter_expenses expenses start end_ = [].
Proof.
  intros Vs Ve L. rewrite filter_expenses_filter. apply filter_none.
  intros r _. now apply inverted_range_excludes.
Qed.

Section Pages.
Context {rt : Runtime}.

(** C7: with "Custom" the page takes the two date boxes as they are; when
    end is before start both filtered frames are empty, and the page is
    drawn, with totals 0, instead of an error. *)
Theorem custom_range_unvalidated (today : date) (f : report_form) (d : db) :
  quick f = "Custom" ->
  chosen_range today f = Ok (custom_start f, custom_end f, []) /\
  (valid (custom_start f) = true -> valid (custom_end f) = true ->
   date_ltb (custom_end f) (custom_start f) = true ->
   (forall trips, filter_trips trips (custom_start f) (custom_end f) = []) /\
   (forall expenses,
      filter_expenses expenses (custom_start f) (custom_end f) = []) /\
   exists page, show_reports today f d = Ok page /\
     (empty (load_trips_df d) && empty (load_expenses_df d) = false ->
      page = ([ StHeader "📊 Reports";
                StMetric "Miles" (PyInt 0);
                StMetric "Expenses" (PyInt 0) ]
              ++ (if generate f then
                    [ StDownloadButton "Download PDF"
                        (generate_irs_pdf [] [] (custom_start f) (custom_end f))
                        "irs_report.pdf" "application/pdf" ]
                  else []))%list)).
Proof.
  intros Q.
  assert (C : chosen_range today f = Ok (custom_start f, custom_end f, [])).
  { unfold chosen_range. now rewrite Q. }
  split; [exact C |]. intros Vs Ve L.
  split; [intros; now apply inverted_range_trips |].
  split; [intros; now apply inverted_range_expenses |].
  unfold show_reports, report_page. cbv zeta.
  destruct (empty (load_trips_df d) && empty (load_expenses_df d)).
  - eexists. split; [reflexivity | discriminate].
  - rewrite C.
    rewrite inverted_range_trips, inverted_range_expenses by assumption.
    destruct (generate f); eexists; split; reflexivity.
Qed.

(** C4: when the filtered trips are empty the miles total is the int 0,
    on the page and in the report, and the deduction is 0.0; when the
    filtered expenses are empty the expenses total is the int 0.  A total
    is a number in every case, and here it is not NaN. *)
Theorem empty_subset_totals
    (trips : list trip) (expenses : list expense) (start end_ : date) :
  (filter_trips trips start end_ = [] ->
   total (map miles (filter_trips trips start end_)) = PyInt 0 /\
   total_miles (filter_trips trips start end_) = PyInt 0 /\
   total_deduction (filter_trips trips start end_) = 0%float /\
   PrimFloat.is_nan (to_float (total_miles (filter_trips trips start end_)))
   = false) /\
  (filter_expenses expenses start end_ = [] ->
   total (map amount (filter_expenses expenses start end_)) = PyInt 0 /\
   total_expenses (filter_expenses expenses start end_) = PyInt 0 /\
   PrimFloat.is_nan
     (to_float (total_expenses (filter_expenses expenses start end_)))
   = false).
Proof.
  split; intros ->; repeat split.
Qed.
End Pages.

(** A custom range from 2024-03-31 back to 2024-03-01 keeps nothing of the
    sample rows. *)
Lemma backwards_march_is_empty :
  chosen_range apr_1 backwards_form = Ok (mar_31, mar_1, []) /\
  filter_trips trips_df mar_31 mar_1 = [] /\
  filter_expenses expenses_df mar_31 mar_1 = [] /\
  exists page, show_reports (rt := Sample.runtime) apr_1 backwards_form stored = Ok page.
Proof.
  destruct (custom_range_unvalidated (rt := Sample.runtime)
              apr_1 backwards_form stored eq_refl) as (C & E).
  destruct (E eq_refl eq_refl eq_refl) as (T & X & page & P & _).
  split; [exact C |]. split; [apply T |]. split; [apply X |].
  now exists page.
Defined.

(** With no row in range the totals of the page are the int 0. *)
Lemma backwards_march_totals :
  total (rt := Sample.runtime) (map miles (filter_trips trips_df mar_31 mar_1))
  = PyInt 0 /\
  total (rt := Sample.runtime)
        (map amount (filter_expenses expenses_df mar_31 mar_1))
  = PyInt 0.
Proof.
  destruct (empty_subset_totals (rt := Sample.runtime)
              trips_df expenses_df mar_31 mar_1) as (T & X).
  split.
  - apply T. reflexivity.
  - apply X. reflexivity.
Defined.

End Aggregator.

(** ** The trip and expense forms *)

Module TripLog.
Import Calendar IsoText Num Store Ui Forms FloatFacts SampleData.

Local Open Scope string_scope.
Local Open Scope Z_scope.

Section Pages.
Context {rt : Runtime}.

(** Miles left at 0 with the end reading above the start reading. *)
Lemma show_log_trip_auto (now : string) (f : trip_form) (d : db) :
  save_trip f = true -> is_zero (in_miles f) = true ->
  float_gt (in_end f) (in_start f) = true ->
  show_log_trip now f d =
  (insert_trip now d (isoformat (in_trip_date f))
     (if float_gt (in_start f) 0 then Some (in_start f) else None)
     (if float_gt (in_end f) 0 then Some (in_end f) else None)
     (PrimFloat.sub (in_end f) (in_start f))
     (Some (in_notes f)) (in_img f),
   [ StHeader "📝 Log Trip";
     StSuccess ("Saved trip: "
                ++ format_2f (PrimFloat.sub (in_end f) (in_start f))
                ++ " miles") ]).
Proof.
  intros S Z G. unfold show_log_trip. cbv zeta. now rewrite S, Z, G.
Qed.

(** Miles typed in: they are stored as typed. *)
Lemma show_log_trip_typed (now : string) (f : trip_form) (d : db) :
  save_trip f = true -> is_zero (in_miles f) = false ->
  fst (show_log_trip now f d) =
  insert_trip now d (isoformat (in_trip_date f))
    (if float_gt (in_start f) 0 then Some (in_start f) else None)
    (if float_gt (in_end f) 0 then Some (in_end f) else None)
    (in_miles f) (Some (in_notes f)) (in_img f).
Proof.
  intros S Z. unfold show_log_trip. cbv zeta. now rewrite S, Z.
Qed.

(** C5: with miles left at 0 and the end reading above the start reading
    (whatever their sign, so for non-negative readings too) saving adds one
    row to [trips], and its miles are the float difference end - start; when
    the start reading is not negative the end reading is stored with it. *)
Theorem auto_miles_is_odometer_difference
    (now : string) (f : trip_form) (d : db) :
  save_trip f = true ->
  is_zero (in_miles f) = true ->
  float_gt (in_end f) (in_start f) = true ->
  exists row,
    trips (fst (show_log_trip now f d)) = (trips d ++ [row])%list /\
    expenses (fst (show_log_trip now f d)) = expenses d /\
    miles row = PrimFloat.sub (in_end f) (in_start f) /\
    trip_date row = isoformat (in_trip_date f) /\
    trip_id row = trips_seq d + 1 /\
    (float_le 0 (in_start f) = true -> end_odometer row = Some (in_end f)).
Proof.
  intros S Z G. rewrite show_log_trip_auto by assumption.
  eexists. cbn [fst insert_trip trips expenses]. repeat split.
  intros N. cbn [end_odometer].
  now rewrite (float_gt_nonneg (in_start f) (in_end f) N G).
Qed.

(** C6: a trip with miles 0 and an end reading not above the start reading,
    and an expense with an amount of 0 or less, show the error message and
    leave the store as it was. *)
Theorem invalid_submission_not_persisted
    (now : string) (f : trip_form) (g : expense_form) (d : db) :
  (save_trip f = true -> is_zero (in_miles f) = true ->
   float_le (in_end f) (in_start f) = true ->
   show_log_trip now f d =
   (d, [ StHeader "📝 Log Trip";
         StError "Enter miles OR valid odometer readings." ])) /\
  (save_expense g = true -> float_le (in_amount g) 0 = true ->
   show_log_expense now g d =
   (d, [ StHeader "💸 Log Expense"; StError "Enter valid amount." ])).
Proof.
  split.
  - intros S Z L. unfold show_log_trip. cbv zeta.
    now rewrite S, Z, (float_le_not_gt _ _ L).
  - intros S L. unfold show_log_expense. cbv zeta. now rewrite S, L.
Qed.

End Pages.

(** Odometer 1000.5 to 1010.25 with miles left at 0: 9.75 miles are
    stored. *)
Lemma odometer_form_stores_difference :
  exists row,
    trips (fst (show_log_trip (rt := Sample.runtime)
                  "2024-03-31T18:00:00" odometer_form init_db)) = [row] /\
    miles row = 9.75%float /\
    end_odometer row = Some 1010.25%float.
Proof.
  destruct (auto_miles_is_odometer_difference (rt := Sample.runtime)
              "2024-03-31T18:00:00" odometer_form init_db
              eq_refl eq_refl eq_refl) as (row & T & _ & M & _ & _ & E).
  exists row. split; [exact T |]. split; [exact M | apply E; reflexivity].
Defined.

(** A form with nothing filled in stores nothing. *)
Lemma blank_forms_store_nothing :
  fst (show_log_trip (rt := Sample.runtime)
         "2024-03-31T18:00:00" blank_trip_form stored) = stored /\
  fst (show_log_expense "2024-03-31T18:00:00" blank_expense_form stored) = stored.
Proof.
  destruct (invalid_submission_not_persisted (rt := Sample.runtime)
              "2024-03-31T18:00:00" blank_trip_form blank_expense_form stored)
    as (T & X).
  split.
  - now rewrite T.
  - now rewrite X.
Defined.

(** C10 fails on the code: miles typed as -5 are stored as -5, while the
    expense form turns an amount of -5 away. *)
Lemma negative_miles_persisted :
  PrimFloat.ltb (in_miles negative_form) 0 = true /\
  map miles (trips (fst (show_log_trip (rt := Sample.runtime)
                           "2024-03-31T18:00:00" negative_form init_db)))
  = [(-5)%float] /\
  fst (show_log_expense "2024-03-31T18:00:00"
         (mkexpense_form mar_31 "Gas" (-5) "" None true) init_db)
  = init_db.
Proof. repeat split. Qed.

End TripLog.

(** ** The Report Renderer *)

Module Renderer.
Import Calendar IsoText Num Store Ui Reports TextFacts SampleData.

Local Open Scope string_scope.
Local Open Scope Z_scope.

Section Pages.
Context {rt : Runtime}.

(** The cells of every trip are in the document. *)
Lemma trip_rows_rendered (trips_df : list trip) (expenses_df : list expense)
    (start_date end_date : date) (row : trip) (op : pdf_op) :
  In row trips_df -> In op (trip_row row) ->
  In op (generate_irs_pdf trips_df expenses_df start_date end_date).
Proof.
  intros R O. unfold generate_irs_pdf, document, trip_table_of.
  destruct trips_df as [| r0 l]; [contradiction |]. cbn [empty].
  rewrite !in_app_iff. right. right. left. right. right.
  apply in_flat_map. now exists row.
Qed.

(** The cells of every expense are in the document. *)
Lemma expense_rows_rendered (trips_df : list trip) (expenses_df : list expense)
    (start_date end_date : date) (row : expense) (op : pdf_op) :
  In row expenses_df -> In op (expense_row row) ->
  In op (generate_irs_pdf trips_df expenses_df start_date end_date).
Proof.
  intros R O. unfold generate_irs_pdf, document, expense_table_of.
  destruct expenses_df as [| r0 l]; [contradiction |]. cbn [empty].
  rewrite !in_app_iff. do 4 right. right. right.
  apply in_flat_map. now exists row.
Qed.

(** A cell text that was taken is the slice of the text, and a NULL among
    them was read as [None]. *)
Lemma text_cell_ok (nan : bool) (v : option string) (txt : string) :
  text_cell nan v = Ok txt ->
  txt = slice_to 70 (or_empty v) /\ (v = None -> nan = false).
Proof.
  destruct v as [t |]; cbn [text_cell or_empty].
  - intros [= <-]. split; [reflexivity | discriminate].
  - destruct nan; [discriminate |]. intros [= <-]. now split.
Qed.


(** A loop that ends well has drawn the line of every row, none of whose
    NULLs was read as NaN. *)
Lemma each_row_ok {A : Type} (nan : bool) (field : A -> option string)
    (cells : A -> string -> list pdf_op) (rows : list A) (lines : list pdf_op) :
  each_row (fun r => text_cell nan (field r)) cells rows = Ok lines ->
  lines = flat_map (fun r => cells r (slice_to 70 (or_empty (field r)))) rows /\
  forall row, In row rows -> field row = None -> nan = false.
Proof.
  revert lines. induction rows as [| r l IH]; intros lines;
    cbn [each_row bind flat_map In].
  - intros [= <-]. split; [reflexivity | intros row []].
  - destruct (text_cell nan (field r)) as [txt | x] eqn:T; [| discriminate].
    destruct (each_row _ cells l) as [rest | x] eqn:E; [| discriminate].
    intros [= <-]. destruct (IH rest eq_refl) as (-> & N).
    destruct (text_cell_ok _ _ _ T) as (-> & M).
    split; [reflexivity |]. intros row [<- | I]; [exact M | now apply N].
Qed.



(** A report that is produced is the document of [generate_irs_pdf]: no
    NULL in it was read as NaN and Latin-1 encodes the texts of its
    lines. *)
Lemma irs_pdf_ok (nan_notes nan_descriptions : bool)
    (trips_df : list trip) (expenses_df : list expense)
    (start_date end_date : date) (doc : list pdf_op) :
  irs_pdf nan_notes nan_descriptions trips_df expenses_df start_date end_date
  = Ok doc ->
  doc = generate_irs_pdf trips_df expenses_df start_date end_date /\
  (forall row, In row trips_df -> notes row = None -> nan_notes = false) /\
  (forall row, In row expenses_df ->
     description row = None -> nan_descriptions = false) /\
  forallb latin1 (texts (flat_map trip_row trips_df
                         ++ flat_map expense_row expenses_df)) = true.
Proof.
  unfold irs_pdf.
  destruct (each_row _ trip_cells trips_df) as [tl |] eqn:T; [| discriminate].
  destruct (each_row _ expense_cells expenses_df) as [el |] eqn:X;
    [| discriminate].
  cbn [bind].
  destruct (each_row_ok _ _ _ _ _ T) as (-> & N).
  destruct (each_row_ok _ _ _ _ _ X) as (-> & D).
  destruct (forallb latin1 _) eqn:L; [| discriminate].
  intros [= <-]. repeat split; assumption.
Qed.




(** C1: the rate is 0.725; the total of no trips is the int 0 and its
    deduction 0.0; the total of a frame with rows is the sum of its miles
    column and the deduction is that sum times 0.725, which is 0.725 for
    the sum 1 and 89.50125 for the sum 123.45; the summary of the report
    shows that total and that product. *)
Theorem deduction_is_miles_times_rate
    (trips_df : list trip) (expenses_df : list expense)
    (start_date end_date : date) :
  IRS_RATE_PER_MILE = 0.725%float /\
  (empty trips_df = true ->
   total_miles trips_df = PyInt 0 /\ total_deduction trips_df = 0%float) /\
  (empty trips_df = false ->
   total_miles trips_df = PyFloat (series_sum (map miles trips_df)) /\
   total_deduction trips_df
   = PrimFloat.mul (series_sum (map miles trips_df)) 0.725%float /\
   (series_sum (map miles trips_df) = 1%float ->
    total_deduction trips_df = 0.725%float) /\
   (series_sum (map miles trips_df) = 123.45%float ->
    total_deduction trips_df = 89.50125%float)) /\
  nth_error (generate_irs_pdf trips_df expenses_df start_date end_date) 8
  = Some (Cell 0 6 ("Total miles: "
                    ++ format_2f
                         (if empty trips_df then 0%float
                          else series_sum (map miles trips_df)))
               0 true "") /\
  nth_error (generate_irs_pdf trips_df expenses_df start_date end_date) 9
  = Some (Cell 0 6 ("IRS deduction ($0.725/mile): $"
                    ++ format_comma_2f
                         (PrimFloat.mul
                            (if empty trips_df then 0%float
                             else series_sum (map miles trips_df))
                            0.725%float))
               0 true "").
Proof.
  split; [reflexivity |].
  unfold total_deduction, total_miles, total, mul_float.
  destruct trips_df as [| r l]; cbn [empty map].
  - repeat split; discriminate.
  - split; [discriminate |]. split; [| split; reflexivity].
    intros _. cbn [to_float]. repeat split; intros ->; reflexivity.
Qed.

End Pages.



(** One trip of 123.45 miles: the total is 123.45 and the deduction is
    89.50125, shown as $89.50. *)
Lemma deduction_of_one_trip :
  total_miles (rt := Sample.runtime) [trip_on 1 "2024-03-10" 123.45 None]
  = PyFloat 123.45 /\
  total_deduction (rt := Sample.runtime) [trip_on 1 "2024-03-10" 123.45 None]
  = 89.50125%float /\
  nth_error (generate_irs_pdf (rt := Sample.runtime)
               [trip_on 1 "2024-03-10" 123.45 None] [] mar_1 mar_31) 9
  = Some (Cell 0 6 "IRS deduction ($0.725/mile): $89.50" 0 true "").
Proof.
  destruct (deduction_is_miles_times_rate (rt := Sample.runtime)
              [trip_on 1 "2024-03-10" 123.45 None] [] mar_1 mar_31)
    as (_ & _ & S & _ & D).
  destruct (S eq_refl) as (M & _ & _ & P).
  split; [exact M |]. split; [apply P; reflexivity |].
  exact D.
Defined.

End Renderer.
(** ** More on the Range Resolver *)

Module ResolverMore.
Import Calendar IsoText Reports CalendarFacts SampleData.

Local Open Scope string_scope.
Local Open Scope Z_scope.

Lemma date_leb_ordinal (a b : date) :
  valid a = true -> valid b = true ->
  (date_leb a b = true <-> toordinal a <= toordinal b).
Proof.
  intros A B. unfold date_leb. rewrite <- (toordinal_compare a b A B).
  destruct (Z.compare_spec (toordinal a) (toordinal b)); split; intros; lia || easy.
Qed.

(** A sum of date and days that exists is the date of the summed ordinal. *)
Lemma add_days_ok (d d' : date) (n : Z) :
  valid d = true -> add_days d n = Ok d' ->
  valid d' = true /\ toordinal d' = toordinal d + n.
Proof.
  intros V A.
  destruct (Z_lt_ge_dec (toordinal d + n) 1) as [L | L].
  { rewrite add_days_overflow in A by (assumption || lia). discriminate. }
  destruct (Z_lt_ge_dec MAXORDINAL (toordinal d + n)) as [U | U].
  { rewrite add_days_overflow in A by (assumption || lia). discriminate. }
  destruct (add_days_ordinal d n V) as (x & X & Vx & Ox); [lia |].
  rewrite X in A. injection A as <-. now split.
Qed.

(** A sum of date and days fails with OverflowError only. *)
Lemma add_days_raise (d : date) (n : Z) (e : exn) :
  valid d = true -> add_days d n = Raise e -> e = OverflowError.
Proof.
  intros V A.
  destruct (Z_lt_ge_dec (toordinal d + n) 1) as [L | L].
  { rewrite add_days_overflow in A by (assumption || lia). now injection A. }
  destruct (Z_lt_ge_dec MAXORDINAL (toordinal d + n)) as [U | U].
  { rewrite add_days_overflow in A by (assumption || lia). now injection A. }
  destruct (add_days_ordinal d n V) as (x & X & _); [lia |].
  rewrite X in A. discriminate.
Qed.

Lemma week_unfold (today : date) :
  get_quick_range today "This Week (Mon-Sun)" =
  (start <- sub_days today (weekday today) ;;
   end_ <- add_days start 6 ;;
   Ok (start, end_)).
Proof. reflexivity. Qed.

(** What a week range that exists is. *)
Lemma week_branch (today start end_ : date) :
  valid today = true ->
  get_quick_range today "This Week (Mon-Sun)" = Ok (start, end_) ->
  valid start = true /\ valid end_ = true /\
  toordinal start = toordinal today - weekday today /\
  toordinal end_ = toordinal start + 6.
Proof.
  intros V G. rewrite week_unfold in G. unfold sub_days in G.
  destruct (add_days today (- weekday today)) as [s |] eqn:S; [| discriminate].
  cbn [bind] in G.
  destruct (add_days s 6) as [e |] eqn:E; [| discriminate].
  cbn [bind] in G. injection G as <- <-.
  destruct (add_days_ok today s _ V S) as (Vs & Os).
  destruct (add_days_ok s e _ Vs E) as (Ve & Oe).
  repeat split; try assumption; lia.
Qed.

(** X1: the week range, when the resolver returns one, starts on a Monday,
    ends on the Sunday six days later and holds today. *)
Theorem week_is_monday_to_sunday (today start end_ : date) :
  valid today = true ->
  get_quick_range today "This Week (Mon-Sun)" = Ok (start, end_) ->
  weekday start = 0 /\ weekday end_ = 6 /\
  toordinal end_ = toordinal start + 6 /\
  date_leb start today = true /\ date_leb today end_ = true.
Proof.
  intros V G.
  destruct (week_branch today start end_ V G) as (Vs & Ve & Os & Oe).
  assert (W : 0 <= weekday today < 7) by (apply Z.mod_pos_bound; lia).
  rewrite !date_leb_ordinal by assumption.
  unfold weekday in *. rewrite Oe, Os.
  repeat split; try lia; Z.div_mod_to_equations; lia.
Qed.

(** On Wednesday 2026-11-04 the week is 2026-11-02 to 2026-11-08. *)
Lemma week_of_2026_11_04 :
  weekday (mkdate 2026 11 2) = 0 /\ weekday (mkdate 2026 11 8) = 6 /\
  date_leb (mkdate 2026 11 2) (mkdate 2026 11 4) = true /\
  date_leb (mkdate 2026 11 4) (mkdate 2026 11 8) = true.
Proof.
  destruct (week_is_monday_to_sunday (mkdate 2026 11 4) (mkdate 2026 11 2)
              (mkdate 2026 11 8) eq_refl eq_refl) as (M & S & _ & L & U).
  repeat split; assumption.
Defined.

Lemma month_unfold (today : date) :
  get_quick_range today "This Month" =
  (start <- replace_day today 1 ;;
   e28 <- date_of (year today) (month today) 28 ;;
   next <- add_days e28 4 ;;
   first <- replace_day next 1 ;;
   end_ <- sub_days first 1 ;;
   Ok (start, end_)).
Proof. reflexivity. Qed.

Lemma before_december_dec (d : date) :
  {before_december_9999 d} + {~ before_december_9999 d}.
Proof.
  unfold before_december_9999.
  destruct (Z_lt_ge_dec (year d) MAXYEAR); [left; now left |].
  destruct (Z_lt_ge_dec (month d) 12); [left; now right | right; lia].
Qed.

(** The range of every selector, when the resolver returns one. *)
Lemma range_cases (today start end_ : date) (name : string) :
  valid today = true -> get_quick_range today name = Ok (start, end_) ->
  (name = "This Week (Mon-Sun)" /\
   get_quick_range today "This Week (Mon-Sun)" = Ok (start, end_)) \/
  (name = "This Month" /\ before_december_9999 today /\
   start = mkdate (year today) (month today) 1 /\
   end_ = mkdate (year today) (month today)
                 (days_in_month (year today) (month today))) \/
  (name = "This Year" /\
   start = mkdate (year today) 1 1 /\ end_ = mkdate (year today) 12 31) \/
  (name <> "This Week (Mon-Sun)" /\ name <> "This Month" /\ name <> "This Year" /\
   start = today /\ end_ = today).
Proof.
  intros V G.
  destruct (string_dec name "This Week (Mon-Sun)") as [-> | W]; [now left |].
  right. destruct (string_dec name "This Month") as [-> | M].
  { left. destruct (before_december_dec today) as [B | B].
    - rewrite (Resolver.month_branch today V B) in G. injection G as <- <-.
      now repeat split.
    - rewrite (Resolver.this_month_overflow today V B) in G. discriminate. }
  right. destruct (string_dec name "This Year") as [-> | Y].
  { left. rewrite (Resolver.this_year_range today V) in G.
    injection G as <- <-. now repeat split. }
  right. rewrite (Resolver.unrecognized_is_today today name W M Y) in G.
  injection G as <- <-. now repeat split.
Qed.

Lemma date_leb_first_of_month (d : date) :
  valid d = true -> date_leb (mkdate (year d) (month d) 1) d = true.
Proof.
  intros V. apply valid_spec in V. destruct V as (_ & _ & D).
  unfold date_leb, date_compare. cbn [year month day].
  rewrite !Z.compare_refl. destruct (Z.compare_spec 1 (day d)); easy || lia.
Qed.

Lemma date_leb_last_of_month (d : date) :
  valid d = true ->
  date_leb d (mkdate (year d) (month d) (days_in_month (year d) (month d))) = true.
Proof.
  intros V. apply valid_spec in V. destruct V as (_ & _ & D).
  unfold date_leb, date_compare. cbn [year month day].
  rewrite !Z.compare_refl.
  destruct (Z.compare_spec (day d) (days_in_month (year d) (month d)));
    easy || lia.
Qed.

Lemma date_leb_first_of_year (d : date) :
  valid d = true -> date_leb (mkdate (year d) 1 1) d = true.
Proof.
  intros V. apply valid_spec in V. destruct V as (_ & M & D).
  unfold date_leb, date_compare. cbn [year month day].
  rewrite Z.compare_refl.
  destruct (Z.compare_spec 1 (month d)); try easy; try lia.
  destruct (Z.compare_spec 1 (day d)); easy || lia.
Qed.

Lemma date_leb_last_of_year (d : date) :
  valid d = true -> date_leb d (mkdate (year d) 12 31) = true.
Proof.
  intros V. pose proof V as V'. apply valid_spec in V'.
  destruct V' as (_ & M & D).
  pose proof (days_in_month_bounds (year d) (month d) M).
  unfold date_leb, date_compare. cbn [year month day].
  rewrite Z.compare_refl.
  destruct (Z.compare_spec (month d) 12); try easy; try lia.
  destruct (Z.compare_spec (day d) 31); easy || lia.
Qed.

(** X2: whatever the selector, a range the resolver returns holds today,
    so it is never inverted. *)
Theorem quick_range_holds_today (today start end_ : date) (name : string) :
  valid today = true -> get_quick_range today name = Ok (start, end_) ->
  date_leb start today = true /\ date_leb today end_ = true.
Proof.
  intros V G.
  destruct (range_cases today start end_ name V G)
    as [(_ & W) | [(_ & _ & -> & ->) | [(_ & -> & ->) | (_ & _ & _ & -> & ->)]]].
  - destruct (week_branch today start end_ V W) as (Vs & Ve & Os & Oe).
    assert (0 <= weekday today < 7) by (apply Z.mod_pos_bound; lia).
    rewrite !date_leb_ordinal by assumption. lia.
  - auto using date_leb_first_of_month, date_leb_last_of_month.
  - auto using date_leb_first_of_year, date_leb_last_of_year.
  - auto using date_leb_refl.
Qed.

(** "This Month" on 2024-02-15 holds that day. *)
Lemma february_2024_holds_the_15th :
  date_leb (mkdate 2024 2 1) (mkdate 2024 2 15) = true /\
  date_leb (mkdate 2024 2 15) (mkdate 2024 2 29) = true.
Proof.
  exact (quick_range_holds_today (mkdate 2024 2 15) (mkdate 2024 2 1)
           (mkdate 2024 2 29) "This Month" eq_refl eq_refl).
Defined.

(** When the resolver fails. *)
Lemma raise_cases (today : date) (name : string) (e : exn) :
  valid today = true -> get_quick_range today name = Raise e ->
  e = OverflowError /\ year today = 9999 /\ month today = 12 /\
  (name = "This Week (Mon-Sun)" \/ name = "This Month").
Proof.
  intros V G.
  assert (D : ~ before_december_9999 today -> year today = 9999 /\ month today = 12).
  { intros B. pose proof V as V'. apply valid_spec in V'.
    unfold before_december_9999, MAXYEAR in B. lia. }
  destruct (string_dec name "This Week (Mon-Sun)") as [-> | W].
  { destruct (before_december_dec today) as [B | B].
    - destruct (Resolver.this_week_range today V B) as (s & x & H & _).
      rewrite H in G. discriminate.
    - destruct (D B) as (Ey & Em). repeat split; auto.
      rewrite week_unfold in G. unfold sub_days in G.
      destruct (add_days today (- weekday today)) as [s | e1] eqn:S; cbn [bind] in G.
      + destruct (add_days_ok today s _ V S) as (Vs & _).
        destruct (add_days s 6) as [x | e2] eqn:E; cbn [bind] in G;
          [discriminate |].
        injection G as <-. exact (add_days_raise s 6 e2 Vs E).
      + injection G as <-. exact (add_days_raise today _ e1 V S). }
  destruct (string_dec name "This Month") as [-> | M].
  { destruct (before_december_dec today) as [B | B].
    - rewrite (Resolver.month_branch today V B) in G. discriminate.
    - destruct (D B) as (Ey & Em).
      rewrite (Resolver.this_month_overflow today V B) in G.
      injection G as <-. repeat split; auto. }
  destruct (string_dec name "This Year") as [-> | Y].
  { rewrite (Resolver.this_year_range today V) in G. discriminate. }
  rewrite (Resolver.unrecognized_is_today today name W M Y) in G. discriminate.
Qed.

(** X3: the resolver fails only with OverflowError, only in December 9999
    and only for the week and the month; "This Year" and the fallback never
    fail. *)
Theorem quick_range_fails_only_by_overflow
    (today : date) (name : string) (e : exn) :
  valid today = true -> get_quick_range today name = Raise e ->
  e = OverflowError /\ year today = 9999 /\ month today = 12 /\
  (name = "This Week (Mon-Sun)" \/ name = "This Month").
Proof. exact (raise_cases today name e). Qed.

(** On 9999-12-28 the week fails, with OverflowError. *)
Lemma overflow_on_9999_12_28 :
  match get_quick_range (mkdate 9999 12 28) "This Week (Mon-Sun)" with
  | Raise e => e = OverflowError
  | Ok _ => False
  end.
Proof.
  exact (proj1 (quick_range_fails_only_by_overflow (mkdate 9999 12 28)
                  "This Week (Mon-Sun)" OverflowError eq_refl eq_refl)).
Defined.

End ResolverMore.

(** ** More on the store *)

Module StoreFacts.
Import IsoText Store Observe TextFacts.

Local Open Scope Z_scope.

Section Sorting.
Variable A : Type.
Variable before : A -> A -> bool.

Lemma insert_row_perm (x : A) (l : list A) :
  Permutation (insert_row before x l) (x :: l).
Proof.
  induction l as [| y l IH]; cbn [insert_row]; [reflexivity |].
  destruct (before x y); [reflexivity |].
  rewrite IH. apply perm_swap.
Qed.

Lemma order_by_perm (l : list A) : Permutation (order_by before l) l.
Proof.
  induction l as [| x l IH]; cbn [order_by fold_right]; [reflexivity |].
  rewrite insert_row_perm. now apply perm_skip.
Qed.

Hypothesis before_total : forall a b, before a b = false -> before b a = true.

Lemma insert_row_hd (x y : A) (l : list A) :
  before y x = true -> HdRel (fun a b => before a b = true) y l ->
  HdRel (fun a b => before a b = true) y (insert_row before x l).
Proof.
  intros Y H. destruct l as [| z l]; cbn [insert_row].
  - now constructor.
  - destruct (before x z); constructor; [assumption |]. now inversion H.
Qed.

Lemma insert_row_sorted (x : A) (l : list A) :
  Sorted (fun a b => before a b = true) l ->
  Sorted (fun a b => before a b = true) (insert_row before x l).
Proof.
  induction 1 as [| y l S IH H]; cbn [insert_row].
  - repeat constructor.
  - destruct (before x y) eqn:E.
    + constructor; [now constructor | now constructor].
    + constructor; [exact IH |]. apply insert_row_hd; auto.
Qed.

Lemma order_by_sorted (l : list A) :
  Sorted (fun a b => before a b = true) (order_by before l).
Proof.
  induction l as [| x l IH]; cbn [order_by fold_right]; [constructor |].
  now apply insert_row_sorted.
Qed.

End Sorting.

Lemma compare_refl (s : string) : String.compare s s = Eq.
Proof.
  induction s as [| c s IH]; cbn [String.compare]; [reflexivity |].
  now rewrite ascii_compare_refl.
Qed.

Lemma compare_gt_trans (a b c : string) :
  String.compare a b = Gt -> String.compare b c = Gt -> String.compare a c = Gt.
Proof.
  intros G1 G2. destruct (String.compare a c) eqn:E; [| | reflexivity].
  - apply String.compare_eq_iff in E. subst c.
    rewrite String.compare_antisym, G1 in G2. discriminate.
  - exfalso.
    assert (L1 : str_le a c = true) by (unfold str_le, String.leb; now rewrite E).
    assert (L2 : str_le c b = true).
    { unfold str_le, String.leb. now rewrite String.compare_antisym, G2. }
    pose proof (str_le_trans a c b L1 L2) as L.
    unfold str_le, String.leb in L. now rewrite G1 in L.
Qed.

Lemma desc_before_total (da : string) (ia : Z) (db : string) (ib : Z) :
  desc_before da ia db ib = false -> desc_before db ib da ia = true.
Proof.
  unfold desc_before. rewrite (String.compare_antisym db da).
  destruct (String.compare da db); cbn [CompOpp]; try easy.
  intros H. apply Z.leb_gt in H. apply Z.leb_le. lia.
Qed.

Lemma desc_before_trans
    (da : string) (ia : Z) (db : string) (ib : Z) (dc : string) (ic : Z) :
  desc_before da ia db ib = true -> desc_before db ib dc ic = true ->
  desc_before da ia dc ic = true.
Proof.
  unfold desc_before.
  destruct (String.compare da db) eqn:E1; try discriminate;
    destruct (String.compare db dc) eqn:E2; try discriminate; intros H1 H2.
  - apply String.compare_eq_iff in E1, E2. subst.
    rewrite compare_refl.
    apply Z.leb_le in H1, H2. apply Z.leb_le. lia.
  - apply String.compare_eq_iff in E1. subst. now rewrite E2.
  - apply String.compare_eq_iff in E2. subst. now rewrite E1.
  - now rewrite (compare_gt_trans da db dc E1 E2).
Qed.

Lemma trip_before_trans : Relations_1.Transitive trip_before.
Proof.
  intros a b c. unfold trip_before. apply desc_before_trans.
Qed.

Lemma expense_before_trans : Relations_1.Transitive expense_before.
Proof.
  intros a b c. unfold expense_before. apply desc_before_trans.
Qed.

Lemma load_trips_perm (d : db) : Permutation (load_trips_df d) (trips d).
Proof. apply order_by_perm. Qed.

Lemma load_expenses_perm (d : db) : Permutation (load_expenses_df d) (expenses d).
Proof. apply order_by_perm. Qed.

Lemma load_trips_In (d : db) (r : trip) :
  In r (load_trips_df d) <-> In r (trips d).
Proof.
  split; apply Permutation_in;
    [apply load_trips_perm | apply Permutation_sym, load_trips_perm].
Qed.

Lemma load_expenses_In (d : db) (r : expense) :
  In r (load_expenses_df d) <-> In r (expenses d).
Proof.
  split; apply Permutation_in;
    [apply load_expenses_perm | apply Permutation_sym, load_expenses_perm].
Qed.

Lemma load_trips_sorted (d : db) : StronglySorted trip_before (load_trips_df d).
Proof.
  apply Sorted_StronglySorted; [exact trip_before_trans |].
  apply order_by_sorted. intros a b. apply desc_before_total.
Qed.

Lemma load_expenses_sorted (d : db) :
  StronglySorted expense_before (load_expenses_df d).
Proof.
  apply Sorted_StronglySorted; [exact expense_before_trans |].
  apply order_by_sorted. intros a b. apply desc_before_total.
Qed.

Lemma load_trips_empty (d : db) : empty (load_trips_df d) = empty (trips d).
Proof.
  pose proof (Permutation_length (load_trips_perm d)) as L.
  destruct (load_trips_df d), (trips d); cbn in *; congruence.
Qed.

Lemma load_expenses_empty (d : db) :
  empty (load_expenses_df d) = empty (expenses d).
Proof.
  pose proof (Permutation_length (load_expenses_perm d)) as L.
  destruct (load_expenses_df d), (expenses d); cbn in *; congruence.
Qed.

(** X4: [load_trips_df] and [load_expenses_df] return the rows of their
    table, each once, the latest date first and, within a date, the highest
    id first. *)
Theorem load_is_the_table_latest_first (d : db) :
  Permutation (load_trips_df d) (trips d) /\
  StronglySorted trip_before (load_trips_df d) /\
  Permutation (load_expenses_df d) (expenses d) /\
  StronglySorted expense_before (load_expenses_df d).
Proof.
  auto using load_trips_perm, load_trips_sorted, load_expenses_perm,
    load_expenses_sorted.
Qed.

(** *** Keys *)

Lemma ids_ok_snoc (ids : list Z) (seq : Z) :
  ids_ok ids seq -> ids_ok (ids ++ [seq + 1]) (seq + 1).
Proof.
  intros (P & N & B). split; [lia |]. split.
  - apply NoDup_app; [exact N | repeat constructor; easy |].
    intros id I [<- | []]. specialize (B _ I). lia.
  - intros id I. apply in_app_iff in I. destruct I as [I | [<- | []]].
    + specialize (B _ I). lia.
    + lia.
Qed.

Lemma insert_trip_keys (now : string) (d : db) (day : string)
    (so eo : option float) (m : float) (n : option string) (img : option blob) :
  keys_ok d -> keys_ok (insert_trip now d day so eo m n img).
Proof.
  intros (T & E). split; cbn [insert_trip trips trips_seq expenses expenses_seq].
  - rewrite map_app. cbn [map trip_id]. now apply ids_ok_snoc.
  - exact E.
Qed.

Lemma insert_expense_keys (now : string) (d : db) (day cat : string)
    (desc : option string) (a : float) (img : option blob) :
  keys_ok d -> keys_ok (insert_expense now d day cat desc a img).
Proof.
  intros (T & E). split;
    cbn [insert_expense trips trips_seq expenses expenses_seq].
  - exact T.
  - rewrite map_app. cbn [map expense_id]. now apply ids_ok_snoc.
Qed.

Lemma init_db_keys : keys_ok init_db.
Proof.
  split; (split; [cbn; lia |]; split; [constructor | intros id []]).
Qed.

Lemma extends_refl {A : Type} (l : list A) : extends l l.
Proof. exists []. now rewrite app_nil_r. Qed.

Lemma extends_snoc {A : Type} (l : list A) (x : A) : extends l (l ++ [x]).
Proof. now exists [x]. Qed.

End StoreFacts.

(** ** More on the forms *)

Module FormFacts.
Import Calendar IsoText Num Store Ui Forms Observe FloatFacts StoreFacts
  SampleData SampleApp.

Local Open Scope string_scope.
Local Open Scope Z_scope.

Section Pages.
Context {rt : Runtime}.

Lemma show_log_trip_step (now : string) (f : trip_form) (d : db) :
  at_most_one_insert d (fst (show_log_trip now f d)).
Proof.
  unfold show_log_trip. cbv zeta.
  destruct (save_trip f); [| now left].
  destruct (is_zero (in_miles f) && float_gt (in_end f) (in_start f)).
  { right. left. cbn [fst]. now repeat eexists. }
  destruct (is_zero (in_miles f)); [now left |].
  right. left. cbn [fst]. now repeat eexists.
Qed.

Lemma show_log_expense_step (now : string) (f : expense_form) (d : db) :
  at_most_one_insert d (fst (show_log_expense now f d)).
Proof.
  unfold show_log_expense. cbv zeta.
  destruct (save_expense f); [| now left].
  destruct (float_le (in_amount f) 0) eqn:A; [now left |].
  right. right. cbn [fst]. exists now. now repeat eexists.
Qed.

(** X5: miles typed in are stored as typed, whatever the odometer
    readings are; a reading is stored only when it is above 0, NULL
    otherwise. *)
Theorem typed_miles_are_stored (now : string) (f : trip_form) (d : db) :
  save_trip f = true -> is_zero (in_miles f) = false ->
  exists row,
    show_log_trip now f d
    = (mkdb (trips d ++ [row]) (trips_seq d + 1) (expenses d) (expenses_seq d),
       [ StHeader "📝 Log Trip";
         StSuccess ("Saved trip: " ++ format_2f (in_miles f) ++ " miles") ]) /\
    miles row = in_miles f /\
    notes row = Some (in_notes f) /\
    (float_gt (in_start f) 0 = true -> start_odometer row = Some (in_start f)) /\
    (float_le (in_start f) 0 = true -> start_odometer row = None) /\
    (float_gt (in_end f) 0 = true -> end_odometer row = Some (in_end f)) /\
    (float_le (in_end f) 0 = true -> end_odometer row = None).
Proof.
  intros S Z. unfold show_log_trip. cbv zeta. rewrite S, Z. cbn [andb].
  eexists. split; [reflexivity |].
  cbn [miles notes start_odometer end_odometer]. repeat split.
  - now intros ->.
  - intros L. now rewrite (float_le_not_gt _ _ L).
  - now intros ->.
  - intros L. now rewrite (float_le_not_gt _ _ L).
Qed.

(** X6: an expense with an amount that is not [<= 0] is stored as entered
    and is in what [load_expenses_df] returns afterwards; the trips table is
    untouched. *)
Theorem valid_expense_is_stored_and_loaded
    (now : string) (f : expense_form) (d : db) :
  save_expense f = true -> float_le (in_amount f) 0 = false ->
  let row := mkexpense (expenses_seq d + 1) (isoformat (in_expense_date f))
               (in_category f) (Some (in_desc f)) (in_amount f)
               (in_receipt f) now in
  let d' := fst (show_log_expense now f d) in
  expenses d' = (expenses d ++ [row])%list /\
  In row (load_expenses_df d') /\
  (forall r, In r (load_expenses_df d) -> In r (load_expenses_df d')) /\
  trips d' = trips d /\
  snd (show_log_expense now f d)
  = [ StHeader "💸 Log Expense"; StSuccess "Expense Saved!" ].
Proof.
  intros S A row d'.
  assert (E : show_log_expense now f d
              = (insert_expense now d (isoformat (in_expense_date f))
                   (in_category f) (Some (in_desc f)) (in_amount f)
                   (in_receipt f),
                 [ StHeader "💸 Log Expense"; StSuccess "Expense Saved!" ])).
  { unfold show_log_expense. cbv zeta. now rewrite S, A. }
  subst d'. rewrite E. cbn [fst snd insert_expense expenses trips].
  split; [reflexivity |]. split; [| split; [| split; reflexivity]].
  - apply load_expenses_In. cbn [expenses]. apply in_app_iff. right. now left.
  - intros r I. apply load_expenses_In. apply load_expenses_In in I.
    cbn [expenses]. apply in_app_iff. now left.
Qed.

End Pages.

(** 45 miles typed with readings 100 and 200: 45 miles are stored. *)
Lemma typed_45_with_odometer_100_200 :
  exists row,
    trips (fst (show_log_trip (rt := Sample.runtime)
                  "2024-03-31T18:00:00" typed_form init_db)) = [row] /\
    miles row = 45%float /\ end_odometer row = Some 200%float.
Proof.
  destruct (typed_miles_are_stored (rt := Sample.runtime)
              "2024-03-31T18:00:00" typed_form init_db eq_refl eq_refl)
    as (row & E & M & _ & _ & _ & O & _).
  exists row. rewrite E. cbn [fst trips init_db app].
  split; [reflexivity |]. split; [exact M | apply O; reflexivity].
Defined.

(** A receipt of 40 dollars is loaded back from an empty store. *)
Lemma gas_receipt_is_loaded :
  map amount (load_expenses_df (fst (show_log_expense "2024-03-31T18:00:00"
                                       gas_form init_db))) = [40%float].
Proof.
  destruct (valid_expense_is_stored_and_loaded "2024-03-31T18:00:00"
              gas_form init_db eq_refl eq_refl) as (E & _).
  unfold load_expenses_df. rewrite E. reflexivity.
Defined.

End FormFacts.

(** ** More on the report page *)

Module ReportFacts.
Import Calendar IsoText Num Store Ui Forms Reports Observe
  CalendarFacts TextFacts StoreFacts SampleData SampleApp.

Local Open Scope string_scope.
Local Open Scope Z_scope.

Lemma date_leb_trans (a b c : date) :
  valid a = true -> valid b = true -> valid c = true ->
  date_leb a b = true -> date_leb b c = true -> date_leb a c = true.
Proof.
  intros A B C. rewrite !ResolverMore.date_leb_ordinal by assumption. lia.
Qed.

Lemma widen_text (s s' e e' : date) (t : string) :
  valid s = true -> valid s' = true -> valid e = true -> valid e' = true ->
  date_leb s' s = true -> date_leb e e' = true ->
  str_le (isoformat s) t = true /\ str_le t (isoformat e) = true ->
  str_le (isoformat s') t = true /\ str_le t (isoformat e') = true.
Proof.
  intros Vs Vs' Ve Ve' Ls Le (H1 & H2).
  rewrite <- (iso_le s' s) in Ls by assumption.
  rewrite <- (iso_le e e') in Le by assumption.
  split; eauto using str_le_trans.
Qed.

(** X7: a range that is widened keeps every row it kept before, trips and
    expenses alike. *)
Theorem wider_range_keeps_more
    (trips : list trip) (expenses : list expense) (s s' e e' : date) :
  valid s = true -> valid s' = true -> valid e = true -> valid e' = true ->
  date_leb s' s = true -> date_leb e e' = true ->
  incl (filter_trips trips s e) (filter_trips trips s' e') /\
  incl (filter_expenses expenses s e) (filter_expenses expenses s' e').
Proof.
  intros Vs Vs' Ve Ve' Ls Le. split; intros r I.
  - apply Aggregator.filter_trips_In in I. destruct I as (I & H).
    apply Aggregator.filter_trips_In. split; [exact I |].
    now apply (widen_text s s' e e').
  - apply Aggregator.filter_expenses_In in I. destruct I as (I & H).
    apply Aggregator.filter_expenses_In. split; [exact I |].
    now apply (widen_text s s' e e').
Qed.

(** All of March 2024 holds what 2024-03-31 alone holds. *)
Lemma march_holds_its_last_day :
  incl (filter_trips trips_df mar_31 mar_31) (filter_trips trips_df mar_1 mar_31).
Proof.
  exact (proj1 (wider_range_keeps_more trips_df expenses_df mar_31 mar_1
                  mar_31 mar_31 eq_refl eq_refl eq_refl eq_refl eq_refl eq_refl)).
Defined.

Lemma in_year (y : Z) (d : date) :
  valid d = true ->
  (date_leb (mkdate y 1 1) d = true /\ date_leb d (mkdate y 12 31) = true
   <-> year d = y).
Proof.
  intros V. pose proof V as V'. apply valid_spec in V'.
  destruct V' as (_ & M & D).
  pose proof (days_in_month_bounds (year d) (month d) M).
  unfold date_leb, date_compare. cbn [year month day].
  rewrite (Z.compare_antisym (year d) y).
  destruct (Z.compare_spec (year d) y) as [E | L | G]; cbn [CompOpp].
  - destruct (Z.compare_spec 1 (month d)), (Z.compare_spec (month d) 12);
      try lia;
      destruct (Z.compare_spec 1 (day d)), (Z.compare_spec (day d) 31);
      try lia; easy.
  - split; [intros (? & ?); discriminate | lia].
  - split; [intros (? & ?); discriminate | lia].
Qed.

Lemma in_month (y m : Z) (d : date) :
  valid d = true ->
  (date_leb (mkdate y m 1) d = true
   /\ date_leb d (mkdate y m (days_in_month y m)) = true
   <-> year d = y /\ month d = m).
Proof.
  intros V. pose proof V as V'. apply valid_spec in V'.
  destruct V' as (_ & M & D).
  unfold date_leb, date_compare. cbn [year month day].
  rewrite (Z.compare_antisym (year d) y), (Z.compare_antisym (month d) m).
  destruct (Z.compare_spec (year d) y) as [E | L | G]; cbn [CompOpp];
    [| split; [intros (? & ?); discriminate | lia] ..].
  destruct (Z.compare_spec (month d) m) as [E' | L' | G']; cbn [CompOpp];
    [| split; [intros (? & ?); discriminate | lia] ..].
  subst y m.
  destruct (Z.compare_spec 1 (day d)),
    (Z.compare_spec (day d) (days_in_month (year d) (month d)));
    try lia; easy.
Qed.

(** X8: "This Year" keeps the rows dated in today's year and no others;
    "This Month" keeps the rows dated in today's month of today's year and
    no others. *)
Theorem year_and_month_ranges_keep_their_rows
    (today : date) (trips : list trip) :
  valid today = true ->
  (exists start end_,
     get_quick_range today "This Year" = Ok (start, end_) /\
     forall r d, valid d = true -> trip_date r = isoformat d ->
       (In r (filter_trips trips start end_) <->
        In r trips /\ year d = year today)) /\
  (before_december_9999 today ->
   exists start end_,
     get_quick_range today "This Month" = Ok (start, end_) /\
     forall r d, valid d = true -> trip_date r = isoformat d ->
       (In r (filter_trips trips start end_) <->
        In r trips /\ year d = year today /\ month d = month today)).
Proof.
  intros V. pose proof V as V'. apply valid_spec in V'.
  destruct V' as (Y & M & D).
  pose proof (days_in_month_bounds (year today) (month today) M) as B.
  split.
  - exists (mkdate (year today) 1 1), (mkdate (year today) 12 31).
    split; [now apply Resolver.this_year_range |].
    intros r d Vd E.
    rewrite Aggregator.filter_trips_In, E, !iso_le
      by (assumption || (apply valid_spec; cbn [year month day days_in_month]; lia)).
    now rewrite in_year.
  - intros P.
    exists (mkdate (year today) (month today) 1),
      (mkdate (year today) (month today)
              (days_in_month (year today) (month today))).
    split; [now apply Resolver.month_branch |].
    intros r d Vd E.
    rewrite Aggregator.filter_trips_In, E, !iso_le
      by (assumption || (apply valid_spec; cbn [year month day]; lia)).
    now rewrite in_month.
Qed.

(** On 2024-04-01 "This Year" keeps the trip of 2024-03-31. *)
Lemma year_2024_keeps_march_31 :
  exists start end_,
    get_quick_range apr_1 "This Year" = Ok (start, end_) /\
    In trip_mar_31 (filter_trips trips_df start end_).
Proof.
  destruct (year_and_month_ranges_keep_their_rows apr_1 trips_df eq_refl)
    as ((s & e & G & K) & _).
  exists s, e. split; [exact G |].
  apply (K trip_mar_31 mar_31); [reflexivity | reflexivity |].
  split; [right; left |]; reflexivity.
Defined.

(** X9: "This Week (Mon-Sun)" keeps the rows dated in the week of today,
    the days with the same Monday before them, and no others. *)
Theorem week_range_keeps_its_rows
    (today start end_ : date) (trips : list trip) :
  valid today = true ->
  get_quick_range today "This Week (Mon-Sun)" = Ok (start, end_) ->
  forall r d, valid d = true -> trip_date r = isoformat d ->
    (In r (filter_trips trips start end_) <->
     In r trips /\
     toordinal d - weekday d = toordinal today - weekday today).
Proof.
  intros V G r d Vd E.
  destruct (ResolverMore.week_branch today start end_ V G) as (Vs & Ve & Os & Oe).
  rewrite Aggregator.filter_trips_In, E, !iso_le by assumption.
  rewrite !ResolverMore.date_leb_ordinal by assumption.
  rewrite Oe, Os. unfold weekday.
  split; intros (I & H); (split; [exact I |]); Z.div_mod_to_equations; lia.
Qed.

(** In the week of Wednesday 2024-04-03, which starts on 2024-04-01, the
    trip of 2024-04-01 is kept. *)
Lemma week_of_2024_04_03_keeps_april_1 :
  In trip_apr_1 (filter_trips trips_df (mkdate 2024 4 1) (mkdate 2024 4 7)).
Proof.
  apply (week_range_keeps_its_rows (mkdate 2024 4 3) (mkdate 2024 4 1)
           (mkdate 2024 4 7) trips_df eq_refl eq_refl trip_apr_1 apr_1
           eq_refl eq_refl).
  split; [left |]; reflexivity.
Defined.

Section Pages.
Context {rt : Runtime}.

(** The row a successful Save Trip adds. *)
Lemma show_log_trip_saved (now : string) (f : trip_form) (d : db) :
  save_trip f = true ->
  is_zero (in_miles f) = false \/ float_gt (in_end f) (in_start f) = true ->
  exists row,
    trips (fst (show_log_trip now f d)) = (trips d ++ [row])%list /\
    trip_date row = isoformat (in_trip_date f) /\
    trip_id row = trips_seq d + 1 /\
    (is_zero (in_miles f) = false -> miles row = in_miles f).
Proof.
  intros S C. unfold show_log_trip. cbv zeta. rewrite S.
  destruct (is_zero (in_miles f)) eqn:Z; cbn [andb].
  - destruct C as [C | C]; [discriminate |]. rewrite C.
    eexists. cbn [fst insert_trip trips]. repeat split. discriminate.
  - eexists. cbn [fst insert_trip trips]. repeat split.
Qed.

(** X10: a trip the form has saved is among the trips of every report
    whose range holds its date. *)
Theorem saved_trip_is_reported
    (now : string) (f : trip_form) (d : db) (start end_ : date) :
  save_trip f = true ->
  is_zero (in_miles f) = false \/ float_gt (in_end f) (in_start f) = true ->
  valid (in_trip_date f) = true -> valid start = true -> valid end_ = true ->
  date_leb start (in_trip_date f) = true ->
  date_leb (in_trip_date f) end_ = true ->
  exists row,
    In row (filter_trips (load_trips_df (fst (show_log_trip now f d)))
              start end_) /\
    trip_date row = isoformat (in_trip_date f) /\
    trip_id row = trips_seq d + 1 /\
    (is_zero (in_miles f) = false -> miles row = in_miles f).
Proof.
  intros S C Vd Vs Ve Ls Le.
  destruct (show_log_trip_saved now f d S C) as (row & T & Dt & Id & M).
  exists row. repeat split; try assumption.
  apply Aggregator.filter_trips_In. rewrite Dt, !iso_le by assumption.
  repeat split; try assumption.
  apply load_trips_In. rewrite T. apply in_app_iff. right. now left.
Qed.


End Pages.

(** The 45 miles typed on 2024-03-31 are in the report of March 2024. *)
Lemma typed_trip_is_in_march :
  exists row,
    In row (filter_trips
              (load_trips_df (fst (show_log_trip (rt := Sample.runtime)
                                     "2024-03-31T18:00:00" typed_form stored)))
              mar_1 mar_31) /\
    miles row = 45%float.
Proof.
  destruct (saved_trip_is_reported (rt := Sample.runtime)
              "2024-03-31T18:00:00" typed_form stored mar_1 mar_31
              eq_refl (or_introl eq_refl) eq_refl eq_refl eq_refl eq_refl eq_refl)
    as (row & I & _ & _ & M).
  exists row. split; [exact I | apply M; reflexivity].
Defined.


End ReportFacts.

(** ** More on the document *)

Module RendererMore.
Import Calendar IsoText Num Store Ui Reports Observe TextFacts SampleData.

Local Open Scope string_scope.
Local Open Scope Z_scope.

Lemma column_app (w : Z) (a b : list pdf_op) :
  column w (a ++ b) = (column w a ++ column w b)%list.
Proof.
  induction a as [| op a IH]; cbn [app column]; [reflexivity |].
  destruct op; try exact IH. destruct (w0 =? w); cbn [app]; now rewrite IH.
Qed.

Lemma filter_table_app (a b : list pdf_op) :
  filter table_cell (a ++ b) = (filter table_cell a ++ filter table_cell b)%list.
Proof. apply filter_app. Qed.

(** The calls of the page header and footer leave the tables as they
    are. *)
Lemma paged_columns (body full : list pdf_op) (w : Z) :
  paged body full -> w <> 0 -> column w full = column w body.
Proof.
  intros P W. assert (Z0 : (0 =? w) = false) by (apply Z.eqb_neq; lia).
  induction P as [stamp | body full P IH | op body full N P IH
                 | stamp w' h txt border ln align body full P IH].
  - cbn [footer column]. now rewrite Z0.
  - cbn [header column app]. now rewrite Z0.
  - destruct op; cbn [column]; try exact IH. now rewrite IH.
  - cbn [footer header column app]. now rewrite Z0.
Qed.

Lemma paged_table_cells (body full : list pdf_op) :
  paged body full -> filter table_cell full = filter table_cell body.
Proof.
  induction 1 as [stamp | body full P IH | op body full N P IH
                 | stamp w' h txt border ln align body full P IH].
  - reflexivity.
  - exact IH.
  - cbn [filter]. now rewrite IH.
  - exact IH.
Qed.

(** Every call of [generate_irs_pdf] is made. *)
Lemma paged_incl (body full : list pdf_op) (op : pdf_op) :
  paged body full -> In op body -> In op full.
Proof.
  induction 1 as [stamp | body full P IH | o body full N P IH
                 | stamp w' h txt border ln align body full P IH];
    intros I.
  - contradiction.
  - destruct I as [<- | I]; [now left |]. right. apply in_app_iff. auto.
  - destruct I as [<- | I]; [now left | right; auto].
  - apply in_app_iff. right. apply in_app_iff. right. auto.
Qed.

(** The full-width lines are those of [generate_irs_pdf], the title of a
    page and the time of a footer. *)
Lemma paged_wide (body full : list pdf_op) (t : string) :
  paged body full -> In t (column 0 full) ->
  In t (column 0 body)
  \/ t = "Spark Driver IRS Mileage & Expense Report"
  \/ exists stamp, t = "Generated on " ++ stamp.
Proof.
  induction 1 as [stamp | body full P IH | o body full N P IH
                 | stamp w' h txt border ln align body full P IH];
    intros I.
  - cbn in I. destruct I as [<- | []]. right. right. now exists stamp.
  - cbn in I. destruct I as [<- | I]; [auto |]. apply IH in I. exact I.
  - destruct o; cbn [column] in I |- *; try (apply IH; exact I).
    destruct (w =? 0).
    + destruct I as [<- | I]; [left; now left |].
      destruct (IH I) as [B | O]; [left; now right | now right].
    + apply IH. exact I.
  - cbn in I. destruct I as [<- | [<- | I]].
    + right. right. now exists stamp.
    + auto.
    + apply IH. exact I.
Qed.

Lemma paged_wide_incl (body full : list pdf_op) (t : string) :
  paged body full -> In t (column 0 body) -> In t (column 0 full).
Proof.
  induction 1 as [stamp | body full P IH | o body full N P IH
                 | stamp w' h txt border ln align body full P IH];
    intros I.
  - contradiction.
  - cbn. right. apply IH. exact I.
  - destruct o; cbn [column] in I |- *; try (apply IH; exact I).
    destruct (w =? 0); [| apply IH; exact I].
    destruct I as [<- | I]; [now left | right; apply IH; exact I].
  - cbn. right. right. apply IH. exact I.
Qed.

(** The document opens a page, whose header writes the title, and its last
    footer writes a time. *)
Lemma paged_title (body full : list pdf_op) :
  paged body full -> In AddPage body ->
  In "Spark Driver IRS Mileage & Expense Report" (column 0 full).
Proof.
  induction 1 as [stamp | body full P IH | o body full N P IH
                 | stamp w' h txt border ln align body full P IH];
    intros I.
  - contradiction.
  - cbn. now left.
  - destruct I as [-> | I]; [contradiction |]. specialize (IH I).
    destruct o; cbn [column]; try exact IH.
    destruct (w =? 0); [now right | exact IH].
  - cbn. right. now left.
Qed.

Lemma paged_stamp (body full : list pdf_op) :
  paged body full ->
  exists stamp, In ("Generated on " ++ stamp) (column 0 full).
Proof.
  induction 1 as [stamp | body full P (s & IH) | o body full N P (s & IH)
                 | stamp w' h txt border ln align body full P (s & IH)].
  - exists stamp. cbn. now left.
  - exists s. cbn. now right.
  - exists s. destruct o; cbn [column]; try exact IH.
    destruct (w =? 0); [now right | exact IH].
  - exists stamp. cbn. now left.
Qed.

(** There is a paging of every document. *)
Lemma one_page_paged (stamp : string) (body : list pdf_op) :
  paged body (one_page stamp body).
Proof.
  induction body as [| op body IH]; cbn [one_page]; [constructor |].
  destruct op; try (apply paged_call; [discriminate | exact IH]).
  now apply paged_add_page.
Qed.

Section Pages.
Context {rt : Runtime}.

Lemma trip_rows_columns (l : list trip) :
  column 135 (flat_map trip_row l)
  = map (fun r => slice_to 70 (or_empty (notes r))) l /\
  column 95 (flat_map trip_row l) = [] /\
  column 40 (flat_map trip_row l) = [] /\
  List.length (filter table_cell (flat_map trip_row l)) = (3 * List.length l)%nat.
Proof.
  induction l as [| r l (A & B & C & D)]; [now cbn |].
  cbn [flat_map trip_row trip_cells app column map]. cbn [Z.eqb Pos.eqb].
  rewrite A, B, C. repeat split.
  cbn [filter table_cell List.length Z.eqb Pos.eqb]. rewrite D. lia.
Qed.

Lemma expense_rows_columns (l : list expense) :
  column 95 (flat_map expense_row l)
  = map (fun r => slice_to 70 (or_empty (description r))) l /\
  column 40 (flat_map expense_row l) = map category l /\
  column 135 (flat_map expense_row l) = [] /\
  List.length (filter table_cell (flat_map expense_row l)) = (4 * List.length l)%nat.
Proof.
  induction l as [| r l (A & B & C & D)]; [now cbn |].
  cbn [flat_map expense_row expense_cells app column map]. cbn [Z.eqb Pos.eqb].
  rewrite A, B, C. repeat split.
  cbn [filter table_cell List.length Z.eqb Pos.eqb]. rewrite D. lia.
Qed.

Lemma trip_rows_wide (l : list trip) : column 0 (flat_map trip_row l) = [].
Proof. induction l as [| r l IH]; [reflexivity | exact IH]. Qed.

Lemma expense_rows_wide (l : list expense) :
  column 0 (flat_map expense_row l) = [].
Proof. induction l as [| r l IH]; [reflexivity | exact IH]. Qed.

(** The columns of the document. *)
Lemma document_columns (trips_df : list trip) (expenses_df : list expense)
    (start_date end_date : date) :
  let doc := generate_irs_pdf trips_df expenses_df start_date end_date in
  column 0 doc
  = ([ ("Reporting period: " ++ isoformat start_date ++ " to "
        ++ isoformat end_date)%string;
       "Summary";
       ("Total miles: " ++ format_2f (to_float (total_miles trips_df)))%string;
       ("IRS deduction ($0.725/mile): $"
        ++ format_comma_2f (total_deduction trips_df))%string;
       ("Total expenses: $"
        ++ format_comma_2f (to_float (total_expenses expenses_df)))%string;
       "Trip Log" ]
     ++ (if empty trips_df then [ "No trips recorded." ] else [])
     ++ [ "Expenses" ]
     ++ (if empty expenses_df then [ "No expenses recorded." ] else []))%list /\
  column 135 doc
  = (if empty trips_df then []
     else "Notes" :: map (fun r => slice_to 70 (or_empty (notes r))) trips_df) /\
  column 95 doc
  = (if empty expenses_df then []
     else "Description"
          :: map (fun r => slice_to 70 (or_empty (description r))) expenses_df) /\
  column 40 doc
  = (if empty expenses_df then [] else "Category" :: map category expenses_df) /\
  List.length (filter table_cell doc)
  = ((if empty trips_df then 0 else 3 * (1 + List.length trips_df))
     + (if empty expenses_df then 0 else 4 * (1 + List.length expenses_df)))%nat.
Proof.
  cbv zeta.
  unfold generate_irs_pdf, document, summary_block, trip_table_of, expense_table_of.
  rewrite !column_app, !filter_table_app, !length_app.
  destruct (trip_rows_columns trips_df) as (T1 & T2 & T3 & T4).
  destruct (expense_rows_columns expenses_df) as (E1 & E2 & E3 & E4).
  pose proof (trip_rows_wide trips_df) as T0.
  pose proof (expense_rows_wide expenses_df) as E0.
  destruct trips_df as [| t ts], expenses_df as [| x xs]; cbn [empty];
    rewrite ?column_app, ?filter_table_app, ?length_app,
      ?T0, ?T1, ?T2, ?T3, ?T4, ?E0, ?E1, ?E2, ?E3, ?E4;
    repeat split; cbn; rewrite ?app_nil_r; try reflexivity; try lia.
Qed.

(** X12: what a report that is produced holds, however the writer pages
    it.  Its full-width lines are the period, the summary, the two titles
    and, for an empty frame only, the placeholder, with the title of each
    page and the time of each footer, of which there is one at least; a
    frame that is not empty gives a header line and one line per row, in
    the order of the frame, with the notes and descriptions cut at 70
    characters. *)
Theorem document_layout (nan_notes nan_descriptions : bool)
    (trips_df : list trip) (expenses_df : list expense)
    (start_date end_date : date) (doc full : list pdf_op) :
  irs_pdf nan_notes nan_descriptions trips_df expenses_df start_date end_date
  = Ok doc ->
  paged doc full ->
  let lines :=
    ([ ("Reporting period: " ++ isoformat start_date ++ " to "
        ++ isoformat end_date)%string;
       "Summary";
       ("Total miles: "
        ++ format_2f (if empty trips_df then 0%float
                      else series_sum (map miles trips_df)))%string;
       ("IRS deduction ($0.725/mile): $"
        ++ format_comma_2f
             (PrimFloat.mul (if empty trips_df then 0%float
                             else series_sum (map miles trips_df))
                0.725%float))%string;
       ("Total expenses: $"
        ++ format_comma_2f (if empty expenses_df then 0%float
                            else series_sum (map amount expenses_df)))%string;
       "Trip Log" ]
     ++ (if empty trips_df then [ "No trips recorded." ] else [])
     ++ [ "Expenses" ]
     ++ (if empty expenses_df then [ "No expenses recorded." ] else []))%list in
  (forall t, In t lines -> In t (column 0 full)) /\
  In "Spark Driver IRS Mileage & Expense Report" (column 0 full) /\
  (exists stamp, In ("Generated on " ++ stamp)%string (column 0 full)) /\
  (forall t, In t (column 0 full) ->
     In t lines \/ t = "Spark Driver IRS Mileage & Expense Report"
     \/ exists stamp, t = ("Generated on " ++ stamp)%string) /\
  column 135 full
  = (if empty trips_df then []
     else "Notes" :: map (fun r => slice_to 70 (or_empty (notes r))) trips_df) /\
  column 95 full
  = (if empty expenses_df then []
     else "Description"
          :: map (fun r => slice_to 70 (or_empty (description r))) expenses_df) /\
  column 40 full
  = (if empty expenses_df then [] else "Category" :: map category expenses_df) /\
  List.length (filter table_cell full)
  = ((if empty trips_df then 0 else 3 * (1 + List.length trips_df))
     + (if empty expenses_df then 0 else 4 * (1 + List.length expenses_df)))%nat.
Proof.
  intros H P. apply Renderer.irs_pdf_ok in H. destruct H as (-> & _).
  destruct (document_columns trips_df expenses_df start_date end_date)
    as (W & N & D & C & B).
  cbv zeta in W, N, D, C, B |- *.
  assert (L : column 0 (generate_irs_pdf trips_df expenses_df start_date end_date)
              = ([ ("Reporting period: " ++ isoformat start_date ++ " to "
                    ++ isoformat end_date)%string;
                   "Summary";
                   ("Total miles: "
                    ++ format_2f (if empty trips_df then 0%float
                                  else series_sum (map miles trips_df)))%string;
                   ("IRS deduction ($0.725/mile): $"
                    ++ format_comma_2f
                         (PrimFloat.mul (if empty trips_df then 0%float
                                         else series_sum (map miles trips_df))
                            0.725%float))%string;
                   ("Total expenses: $"
                    ++ format_comma_2f
                         (if empty expenses_df then 0%float
                          else series_sum (map amount expenses_df)))%string;
                   "Trip Log" ]
                 ++ (if empty trips_df then [ "No trips recorded." ] else [])
                 ++ [ "Expenses" ]
                 ++ (if empty expenses_df then [ "No expenses recorded." ]
                     else []))%list).
  { rewrite W. unfold total_deduction, total_miles, total_expenses, total, mul_float.
    destruct trips_df, expenses_df; reflexivity. }
  rewrite <- L.
  split; [| split; [| split; [| split; [| split; [| split; [| split]]]]]].
  - intros t I. apply (paged_wide_incl _ _ _ P I).
  - apply (paged_title _ _ P). unfold generate_irs_pdf. cbn. auto.
  - apply (paged_stamp _ _ P).
  - intros t I. apply (paged_wide _ _ _ P I).
  - rewrite (paged_columns _ _ 135 P) by lia. exact N.
  - rewrite (paged_columns _ _ 95 P) by lia. exact D.
  - rewrite (paged_columns _ _ 40 P) by lia. exact C.
  - rewrite (paged_table_cells _ _ P). exact B.
Qed.

(** X13: in a report that is produced, however the writer pages it, no
    Notes or Description cell holds more than 70 characters, and a text of
    at most 70 characters is in its cell as it is. *)
Theorem text_cells_fit (nan_notes nan_descriptions : bool)
    (trips_df : list trip) (expenses_df : list expense)
    (start_date end_date : date) (doc full : list pdf_op) :
  irs_pdf nan_notes nan_descriptions trips_df expenses_df start_date end_date
  = Ok doc ->
  paged doc full ->
  Forall (fun t => (str_len t <= 70)%nat) (column 135 full) /\
  Forall (fun t => (str_len t <= 70)%nat) (column 95 full) /\
  (forall r, In r trips_df ->
     (str_len (or_empty (notes r)) <= 70)%nat ->
     In (Cell 135 6 (or_empty (notes r)) 1 true "") full) /\
  (forall r, In r expenses_df ->
     (str_len (or_empty (description r)) <= 70)%nat ->
     In (Cell 95 6 (or_empty (description r)) 1 true "") full).
Proof.
  intros H P. apply Renderer.irs_pdf_ok in H. destruct H as (-> & _).
  destruct (document_columns trips_df expenses_df start_date end_date)
    as (_ & N & D & _).
  cbv zeta in N, D.
  rewrite (paged_columns _ _ 135 P), (paged_columns _ _ 95 P), N, D by lia.
  assert (F : forall (A : Type) (f : A -> option string) (l : list A),
            Forall (fun t => (str_len t <= 70)%nat)
                   (map (fun r => slice_to 70 (or_empty (f r))) l)).
  { intros A f l. apply Forall_forall. intros t I. apply in_map_iff in I.
    destruct I as (r & <- & _). rewrite slice_to_len. lia. }
  split; [| split; [| split]].
  - destruct (empty trips_df); constructor; [cbn; lia | apply (F _ notes)].
  - destruct (empty expenses_df); constructor;
      [cbn; lia | apply (F _ description)].
  - intros r I L. apply (paged_incl _ _ _ P).
    rewrite <- (slice_to_short 70 (or_empty (notes r)) L).
    apply (Renderer.trip_rows_rendered _ _ _ _ r); [exact I |].
    unfold trip_row, trip_cells. cbn [In]. auto.
  - intros r I L. apply (paged_incl _ _ _ P).
    rewrite <- (slice_to_short 70 (or_empty (description r)) L).
    apply (Renderer.expense_rows_rendered _ _ _ _ r); [exact I |].
    unfold expense_row, expense_cells. cbn [In]. auto.
Qed.

End Pages.

(** The report of the sample rows on one page: its Notes column. *)
Lemma notes_column_of_the_sample :
  column 135
    (one_page "2024-04-02 08:00"
       (generate_irs_pdf (rt := Sample.runtime) trips_df expenses_df mar_1 apr_1))
  = [ "Notes"; "";
      "0123456789012345678901234567890123456789012345678901234567890123456789";
      "deliveries" ].
Proof.
  destruct (document_layout (rt := Sample.runtime) false false
              trips_df expenses_df mar_1 apr_1 _ _
              eq_refl (one_page_paged "2024-04-02 08:00" _))
    as (_ & _ & _ & _ & N & _).
  exact N.
Defined.

(** The note "deliveries" is in its cell as it is. *)
Lemma short_note_is_not_cut :
  In (Cell 135 6 "deliveries" 1 true "")
     (one_page "2024-04-02 08:00"
        (generate_irs_pdf (rt := Sample.runtime) trips_df expenses_df mar_1 apr_1)).
Proof.
  destruct (text_cells_fit (rt := Sample.runtime) false false
              trips_df expenses_df mar_1 apr_1 _ _
              eq_refl (one_page_paged "2024-04-02 08:00" _))
    as (_ & _ & T & _).
  apply (T (trip_on 1 "2024-03-10" 50 (Some "deliveries"))).
  - right. right. left. reflexivity.
  - cbn. lia.
Defined.

End RendererMore.

(** ** The script *)

Module AppFacts.
Import Calendar IsoText Num Store Ui Forms Reports App Observe
  StoreFacts FormFacts SampleData SampleApp.

Local Open Scope string_scope.
Local Open Scope Z_scope.

Lemma step_extends (d d' : db) :
  at_most_one_insert d d' ->
  extends (trips d) (trips d') /\ extends (expenses d) (expenses d') /\
  (List.length (trips d') + List.length (expenses d')
   <= List.length (trips d) + List.length (expenses d) + 1)%nat.
Proof.
  intros [-> | [(now & day & so & eo & m & n & img & ->)
               | (now & day & cat & desc & a & img & _ & ->)]].
  - repeat split; try apply extends_refl. lia.
  - cbn [insert_trip trips expenses]. repeat split;
      [apply extends_snoc | apply extends_refl |].
    rewrite length_app. cbn. lia.
  - cbn [insert_expense trips expenses]. repeat split;
      [apply extends_refl | apply extends_snoc |].
    rewrite length_app. cbn. lia.
Qed.

Lemma step_keys (d d' : db) :
  at_most_one_insert d d' -> keys_ok d -> keys_ok d'.
Proof.
  intros [-> | [(now & day & so & eo & m & n & img & ->)
               | (now & day & cat & desc & a & img & _ & ->)]] K;
    auto using insert_trip_keys, insert_expense_keys.
Qed.

Lemma step_amounts (d d' : db) :
  at_most_one_insert d d' -> amounts_ok d -> amounts_ok d'.
Proof.
  intros [-> | [(now & day & so & eo & m & n & img & ->)
               | (now & day & cat & desc & a & img & A & ->)]] K;
    [exact K | exact K |].
  intros r I. cbn [insert_expense expenses] in I. apply in_app_iff in I.
  destruct I as [I | [<- | []]]; [now apply K | exact A].
Qed.

Section Pages.
Context {rt : Runtime} {df : DashboardFormat}.

Lemma show_page_step (today : date) (now : string) (i : inputs) (d : db) :
  at_most_one_insert d (fst (fst (show_page today now i d))).
Proof.
  unfold show_page.
  destruct (String.eqb (menu i) "Dashboard"); [now left |].
  destruct (String.eqb (menu i) "Log Trip"); [apply show_log_trip_step |].
  destruct (String.eqb (menu i) "Log Expense"); [apply show_log_expense_step |].
  destruct (String.eqb (menu i) "Reports & Export");
    [destruct (show_reports today (report_in i) d); now left |].
  destruct (String.eqb (menu i) "Settings"); now left.
Qed.

Lemma main_step (today : date) (now : string) (i : inputs)
    (s : session) (file : option db) :
  at_most_one_insert (open_db file) (db_out (main today now i s file)).
Proof.
  unfold main. cbv zeta.
  destruct (negb _); [now left |].
  pose proof (show_page_step today now i (open_db file)) as P.
  destruct (snd (show_page today now i (open_db file)));
    [| destruct (log_out i)]; exact P.
Qed.

(** X14: a run of the script never changes or removes a stored row: it
    leaves both tables as they are or adds one row at the end of one of
    them. *)
Theorem a_run_only_appends (today : date) (now : string) (i : inputs)
    (s : session) (file : option db) :
  let d := open_db file in
  let d' := db_out (main today now i s file) in
  extends (trips d) (trips d') /\ extends (expenses d) (expenses d') /\
  (List.length (trips d') + List.length (expenses d')
   <= List.length (trips d) + List.length (expenses d) + 1)%nat.
Proof. cbv zeta. apply step_extends, main_step. Qed.

Lemma run_all_invariant (P : db -> Prop) :
  (forall d d', at_most_one_insert d d' -> P d -> P d') ->
  forall steps s file,
    P (open_db file) -> P (open_db (snd (run_all steps s file))).
Proof.
  intros Step steps. induction steps as [| [[today now] i] rest IH];
    intros s file H; cbn [run_all snd]; [exact H |].
  apply IH. cbn [open_db]. apply (Step (open_db file)); [apply main_step | exact H].
Qed.

(** X15: whatever runs the script makes on a new database file, the ids
    of each table stay positive, all different and at most the sequence
    value, and no stored expense has an amount [<= 0]. *)
Theorem every_store_is_sound
    (steps : list (date * string * inputs)) (s : session) :
  let d := open_db (snd (run_all steps s None)) in
  keys_ok d /\ amounts_ok d.
Proof.
  cbv zeta. split.
  - apply (run_all_invariant keys_ok step_keys). exact init_db_keys.
  - apply (run_all_invariant amounts_ok step_amounts). intros r [].
Qed.

Lemma main_logged_out (today : date) (now : string) (i : inputs)
    (s : session) (file : option db) :
  logged_in s <> Some true ->
  main today now i s file
  = let s0 := mksession (Some false) in
    let r := show_login (login_in i) s0 in
    mkoutcome (fst (fst r)) (open_db file) (snd (fst r)) (snd r).
Proof.
  intros L. unfold main. cbv zeta.
  destruct s as [[[|] |]]; cbn [logged_in negb]; try reflexivity.
  now contradiction L.
Qed.

(** X16: a run in a session that is not logged in shows the login page
    and nothing else and leaves the store as it is, whatever the other
    widgets hold; it logs the session in exactly when Login is pressed with
    the user name and the password of the program. *)
Theorem logged_out_run_is_the_login_page
    (today : date) (now : string) (i : inputs) (s : session) (file : option db) :
  logged_in s <> Some true ->
  let o := main today now i s file in
  db_out o = open_db file /\
  (logged_in (session_out o) = Some true <->
   login_pressed (login_in i) = true /\ good_credentials (login_in i)) /\
  (logged_in (session_out o) = Some true \/ logged_in (session_out o) = Some false) /\
  (shown o = [ StTitle "🚗 Spark Driver Tracker - Login" ] \/
   shown o = [ StTitle "🚗 Spark Driver Tracker - Login";
               St (StSuccess "Login successful!") ] \/
   shown o = [ StTitle "🚗 Spark Driver Tracker - Login";
               St (StError "Incorrect username or password.") ]).
Proof.
  intros L. cbv zeta. rewrite (main_logged_out today now i s file L).
  cbv zeta. unfold show_login, good_credentials.
  destruct (login_pressed (login_in i)).
  - destruct (String.eqb_spec (in_username (login_in i)) APP_USERNAME) as [U | U];
      destruct (String.eqb_spec (in_password (login_in i)) APP_PASSWORD) as [P | P];
      cbn [andb fst snd db_out session_out shown logged_in];
      repeat split; auto; try (intros (_ & ? & ?); contradiction);
      try discriminate.
  - cbn [fst snd db_out session_out shown logged_in].
    repeat split; auto; try discriminate. intros (? & _). discriminate.
Qed.

(** No run stores anything while no run logs in. *)
Lemma locked_out_runs (steps : list (date * string * inputs))
    (s : session) (file : option db) :
  logged_in s <> Some true ->
  Forall (fun step => ~ (login_pressed (login_in (snd step)) = true
                         /\ good_credentials (login_in (snd step)))) steps ->
  logged_in (fst (run_all steps s file)) <> Some true /\
  open_db (snd (run_all steps s file)) = open_db file.
Proof.
  revert s file. induction steps as [| [[today now] i] rest IH];
    intros s file L F; cbn [run_all fst snd]; [now split |].
  inversion F as [| x l B F' E]; subst. cbn [snd] in B.
  set (o := main today now i s file).
  assert (D : db_out o = open_db file).
  { subst o. rewrite (main_logged_out today now i s file L). reflexivity. }
  assert (S : logged_in (session_out o) <> Some true).
  { subst o. rewrite (main_logged_out today now i s file L). cbv zeta.
    unfold show_login, good_credentials in *.
    destruct (login_pressed (login_in i)); [| cbn; discriminate].
    destruct (String.eqb_spec (in_username (login_in i)) APP_USERNAME);
      destruct (String.eqb_spec (in_password (login_in i)) APP_PASSWORD);
      cbn [andb fst snd session_out logged_in]; try discriminate.
    exfalso. now apply B. }
  destruct (IH (session_out o) (Some (db_out o)) S F') as (S' & D').
  split; [exact S' |]. rewrite D'. cbn [open_db]. exact D.
Qed.

(** X17: as long as no run presses Login with the user name and the
    password of the program, a session that is not logged in stays so and
    the store stays as it is, whatever the runs are. *)
Theorem nothing_is_stored_without_login
    (steps : list (date * string * inputs)) (s : session) (file : option db) :
  logged_in s <> Some true ->
  Forall (fun step => ~ (login_pressed (login_in (snd step)) = true
                         /\ good_credentials (login_in (snd step)))) steps ->
  logged_in (fst (run_all steps s file)) <> Some true /\
  open_db (snd (run_all steps s file)) = open_db file.
Proof. exact (locked_out_runs steps s file). Qed.

(** X18: Log Out, pressed in a session that is logged in on a page that
    does not fail, logs the session out after the page has run, and asks
    for the next run; that run is the login page and stores nothing. *)
Theorem log_out_ends_the_session
    (today : date) (now : string) (i : inputs) (file : option db)
    (today' : date) (now' : string) (i' : inputs) :
  log_out i = true ->
  snd (show_page today now i (open_db file)) = None ->
  let o := main today now i (mksession (Some true)) file in
  let o' := main today' now' i' (session_out o) (Some (db_out o)) in
  logged_in (session_out o) = Some false /\ ended o = Rerun /\
  db_out o = fst (fst (show_page today now i (open_db file))) /\
  db_out o' = db_out o.
Proof.
  intros L P. cbv zeta.
  assert (E : main today now i (mksession (Some true)) file
              = mkoutcome (mksession (Some false))
                  (fst (fst (show_page today now i (open_db file))))
                  (snd (fst (show_page today now i (open_db file)))) Rerun).
  { unfold main. cbv zeta. cbn [logged_in negb]. now rewrite P, L. }
  rewrite E. cbn [session_out db_out ended logged_in]. repeat split.
Qed.

Lemma sorted_split {A : Type} (R : A -> A -> Prop) (l1 l2 : list A) :
  StronglySorted R (l1 ++ l2) ->
  forall a b, In a l1 -> In b l2 -> R a b.
Proof.
  induction l1 as [| x l1 IH]; intros S a b Ia Ib; [contradiction |].
  cbn [app] in S. apply StronglySorted_inv in S. destruct S as (S & F).
  destruct Ia as [<- | Ia]; [| now apply IH].
  rewrite Forall_forall in F. apply F, in_app_iff. now right.
Qed.

Lemma firstn_In {A : Type} (n : nat) (l : list A) (x : A) :
  In x (firstn n l) -> In x l.
Proof.
  revert n. induction l as [| y l IH]; intros [| n]; cbn [firstn In]; try easy.
  intros [E | I]; [now left | right; now apply (IH n)].
Qed.

(** The first rows of a sorted list stand before the others. *)
Lemma sorted_firstn {A : Type} (R : A -> A -> Prop) (n : nat) (l : list A) :
  StronglySorted R l ->
  StronglySorted R (firstn n l) /\
  forall a b, In a (firstn n l) -> In b (skipn n l) -> R a b.
Proof.
  intros S. split.
  - revert n. induction S as [| x l S IH F]; intros [| n]; cbn [firstn];
      try constructor.
    + apply IH.
    + rewrite Forall_forall in F |- *. intros y I. apply F.
      now apply (firstn_In n l).
  - apply sorted_split. now rewrite firstn_skipn.
Qed.

(** X19: the one list of trips on the dashboard holds the latest twenty
    trips of the table, or all of them when they are fewer, the latest
    first: the table is these rows and others, each of which stands after
    every listed row in the order of date and id.  The same holds of the
    expenses; an empty table gives its notice and no list. *)
Theorem dashboard_lists_the_latest_twenty (d : db) :
  (trips d = [] ->
   In (St (StInfo "No trips logged yet.")) (show_dashboard d) /\
   forall rows, ~ In (StTripsFrame rows) (show_dashboard d)) /\
  (trips d <> [] ->
   exists top rest,
     (forall rows, In (StTripsFrame rows) (show_dashboard d) <->
                   rows = map (fun r => (trip_date r, miles r, notes r)) top) /\
     Permutation (top ++ rest) (trips d) /\
     List.length top = Nat.min 20 (List.length (trips d)) /\
     StronglySorted trip_before top /\
     (forall a b, In a top -> In b rest -> trip_before a b)) /\
  (expenses d = [] ->
   In (St (StInfo "No expenses logged yet.")) (show_dashboard d) /\
   forall rows, ~ In (StExpensesFrame rows) (show_dashboard d)) /\
  (expenses d <> [] ->
   exists top rest,
     (forall rows, In (StExpensesFrame rows) (show_dashboard d) <->
                   rows = map (fun r => (expense_date r, category r, amount r))
                              top) /\
     Permutation (top ++ rest) (expenses d) /\
     List.length top = Nat.min 20 (List.length (expenses d)) /\
     StronglySorted expense_before top /\
     (forall a b, In a top -> In b rest -> expense_before a b)).
Proof.
  assert (Frames :
    (forall rows, In (StTripsFrame rows) (show_dashboard d) <->
       trips d <> [] /\ rows = recent_trips (load_trips_df d)) /\
    (forall rows, In (StExpensesFrame rows) (show_dashboard d) <->
       expenses d <> [] /\ rows = recent_expenses (load_expenses_df d)) /\
    (trips d = [] -> In (St (StInfo "No trips logged yet.")) (show_dashboard d)) /\
    (expenses d = [] ->
     In (St (StInfo "No expenses logged yet.")) (show_dashboard d))).
  { unfold show_dashboard. cbv zeta.
    rewrite load_trips_empty, load_expenses_empty.
    split; [| split; [| split]].
    - intros rows. rewrite !in_app_iff.
      destruct (trips d) as [| t ts]; cbn [empty In]; split.
      + intros [H | [H | H]];
          [ repeat (destruct H as [H | H]; [discriminate H |]); contradiction H
          | destruct H as [H | []]; discriminate H
          | destruct H as [[H | []] | H]; [discriminate H |];
            destruct (empty (expenses d)); destruct H as [H | []];
            discriminate H ].
      + intros [N _]. now contradiction N.
      + intros [H | [H | H]];
          [ repeat (destruct H as [H | H]; [discriminate H |]); contradiction H
          | destruct H as [H | []]; injection H as <-;
            split; [discriminate | reflexivity]
          | destruct H as [[H | []] | H]; [discriminate H |];
            destruct (empty (expenses d)); destruct H as [H | []];
            discriminate H ].
      + intros [_ ->]. right. left. now left.
    - intros rows. rewrite !in_app_iff.
      destruct (expenses d) as [| x xs]; cbn [empty In]; split.
      + intros [H | [H | H]];
          [ repeat (destruct H as [H | H]; [discriminate H |]); contradiction H
          | destruct (empty (trips d)); destruct H as [H | []]; discriminate H
          | destruct H as [[H | []] | [H | []]]; discriminate H ].
      + intros [N _]. now contradiction N.
      + intros [H | [H | H]];
          [ repeat (destruct H as [H | H]; [discriminate H |]); contradiction H
          | destruct (empty (trips d)); destruct H as [H | []]; discriminate H
          | destruct H as [[H | []] | [H | []]]; [discriminate H |];
            injection H as <-; split; [discriminate | reflexivity] ].
      + intros [_ ->]. right. right. right. now left.
    - intros ->. cbn [empty]. rewrite !in_app_iff. cbn. auto 10.
    - intros ->. cbn [empty]. rewrite !in_app_iff. cbn. auto 10. }
  destruct Frames as (FT & FE & NT & NE).
  split; [| split; [| split]].
  - intros E. split; [now apply NT |]. intros rows I. apply FT in I.
    destruct I as [N _]. now apply N.
  - intros N.
    exists (firstn 20 (load_trips_df d)), (skipn 20 (load_trips_df d)).
    destruct (sorted_firstn trip_before 20 _ (load_trips_sorted d)) as (S & B).
    split; [| split; [| split; [| split]]].
    + intros rows. rewrite FT. unfold recent_trips. tauto.
    + rewrite firstn_skipn. apply load_trips_perm.
    + rewrite length_firstn, (Permutation_length (load_trips_perm d)).
      reflexivity.
    + exact S.
    + exact B.
  - intros E. split; [now apply NE |]. intros rows I. apply FE in I.
    destruct I as [N _]. now apply N.
  - intros N.
    exists (firstn 20 (load_expenses_df d)), (skipn 20 (load_expenses_df d)).
    destruct (sorted_firstn expense_before 20 _ (load_expenses_sorted d))
      as (S & B).
    split; [| split; [| split; [| split]]].
    + intros rows. rewrite FE. unfold recent_expenses. tauto.
    + rewrite firstn_skipn. apply load_expenses_perm.
    + rewrite length_firstn, (Permutation_length (load_expenses_perm d)).
      reflexivity.
    + exact S.
    + exact B.
Qed.

End Pages.

(** The sample store has three trips: the dashboard lists them all, the
    latest first. *)
Lemma dashboard_of_the_sample_store :
  exists top,
    In (StTripsFrame (map (fun r => (trip_date r, miles r, notes r)) top))
       (show_dashboard (rt := Sample.runtime) (df := dashboard_format) stored) /\
    List.length top = 3%nat /\
    StronglySorted trip_before top.
Proof.
  destruct (dashboard_lists_the_latest_twenty (rt := Sample.runtime)
              (df := dashboard_format) stored) as (_ & T & _).
  destruct T as (top & rest & F & _ & L & S & _); [discriminate |].
  exists top. split; [now apply F | split; [exact L | exact S]].
Defined.

(** A wrong password shows the login page again and stores nothing. *)
Lemma wrong_password_is_turned_away :
  let o := main (rt := Sample.runtime) (df := dashboard_format)
             apr_1 "2024-04-01T09:00:00"
             (mkinputs bad_login "Log Trip" typed_form gas_form march_form false)
             (mksession None) (Some stored) in
  db_out o = stored /\ logged_in (session_out o) <> Some true.
Proof.
  cbv zeta.
  destruct (logged_out_run_is_the_login_page (rt := Sample.runtime)
              (df := dashboard_format) apr_1 "2024-04-01T09:00:00"
              (mkinputs bad_login "Log Trip" typed_form gas_form march_form false)
              (mksession None) (Some stored)) as (D & _ & [S | S] & _);
    [discriminate | discriminate | ].
  split; [exact D |]. rewrite S. discriminate.
Defined.

(** Two runs with a wrong password, the second on the Log Trip page with
    Save Trip pressed: the store is as before. *)
Lemma two_wrong_passwords_store_nothing :
  open_db (snd (run_all (rt := Sample.runtime) (df := dashboard_format)
                  [ (apr_1, "2024-04-01T09:00:00",
                     mkinputs bad_login "Dashboard" typed_form gas_form
                       march_form false);
                    (apr_1, "2024-04-01T09:00:05",
                     mkinputs bad_login "Log Trip" typed_form gas_form
                       march_form false) ]
                  signed_out (Some stored)))
  = stored.
Proof.
  apply (nothing_is_stored_without_login (rt := Sample.runtime)
           (df := dashboard_format)).
  - discriminate.
  - repeat constructor; cbn; intros (_ & _ & P); discriminate.
Defined.

(** Log Out pressed on the dashboard: the session is logged out and the
    next run, with Save Trip pressed, stores nothing. *)
Lemma log_out_on_the_dashboard :
  let o := main (rt := Sample.runtime) (df := dashboard_format)
             apr_1 "2024-04-01T09:00:00" logout_run signed_in (Some stored) in
  logged_in (session_out o) = Some false /\
  db_out (main (rt := Sample.runtime) (df := dashboard_format)
            apr_1 "2024-04-01T09:00:05" trip_run (session_out o)
            (Some (db_out o)))
  = stored.
Proof.
  cbv zeta.
  destruct (log_out_ends_the_session (rt := Sample.runtime)
              (df := dashboard_format) apr_1 "2024-04-01T09:00:00" logout_run
              (Some stored) apr_1 "2024-04-01T09:00:05" trip_run
              eq_refl eq_refl) as (S & _ & D & D').
  split; [exact S | exact (eq_trans D' D)].
Defined.

(** Logged in, on the Log Trip page of a new file, with Save Trip pressed
    in two runs: the two trips have ids 1 and 2. *)
Lemma two_saved_trips_have_two_ids :
  let d := open_db (snd (run_all (rt := Sample.runtime)
                           (df := dashboard_format)
                           [ (apr_1, "2024-04-01T09:00:00", trip_run);
                             (apr_1, "2024-04-01T09:00:05", trip_run) ]
                           signed_in None)) in
  map trip_id (trips d) = [1; 2] /\ keys_ok d.
Proof.
  cbv zeta. split; [reflexivity |].
  exact (proj1 (every_store_is_sound (rt := Sample.runtime)
                  (df := dashboard_format)
                  [ (apr_1, "2024-04-01T09:00:00", trip_run);
                    (apr_1, "2024-04-01T09:00:05", trip_run) ]
                  signed_in)).
Defined.

End AppFacts.
